(** * lsoa_plot.py: the temporal outbreak distributor

    A shallow embedding of the week loop of [lsoa_plot.py] (the blending
    schedule, the frame assignment loop and the decay of historical
    outbreaks) and the properties its specification states about it.

    Conventions of the embedding.
    - Python [int] is [Z]; a list index produced by [range] or [enumerate]
      is a [nat].
    - Python [float] is an exact rational [Q]: every float operation is
      taken without rounding error, [int(x)] is truncation toward zero.
    - An uncaught exception ends the run: fallible code lives in the
      [result] monad and raises the exception Python raises.
    - [math.pow] and [random.shuffle] are library functions outside the
      script: they are parameters of the run. *)

From Stdlib Require Import ZArith QArith Qabs Qround List Lia Lqa Bool.
From Stdlib Require String Ascii.
From Stdlib Require Import Permutation Sorted.
Import ListNotations.

Local Open Scope Z_scope.

(** ** Exceptions *)

(** The lists the script indexes: an [IndexError] is reported with the
    line, hence the list, it comes from. *)
Inductive site : Type :=
| at_normalised_rel
| at_normalised_list
| at_weekly_outbreaks
| at_historical_outbreaks.

Inductive exn : Type :=
| ZeroDivisionError
| IndexError (s : site)
| NameError.

Inductive result (A : Type) : Type :=
| Ok (a : A)
| Raise (e : exn).

Arguments Ok {A} a.
Arguments Raise {A} e.

Definition bind {A B : Type} (c : result A) (k : A -> result B) : result B :=
  match c with
  | Ok a => k a
  | Raise e => Raise e
  end.

Notation "x <- c ;; k" := (bind c (fun x => k))
  (at level 61, c at next level, right associativity).

(** ** Python arithmetic and list primitives *)

Module Py.

(** [int(x)] on a float: truncation toward zero. *)
Definition int (x : Q) : Z := Z.quot (Qnum x) (Zpos (Qden x)).

(** [a / b] with a float operand. *)
Definition div (a b : Q) : result Q :=
  if Qeq_bool b 0 then Raise ZeroDivisionError else Ok (a / b)%Q.

(** [a < b] on floats. *)
Definition lt (a b : Q) : bool := negb (Qle_bool b a).

(** [range(n)]: empty when [n <= 0]. *)
Definition range (n : Z) : list nat := seq 0 (Z.to_nat n).

(** [l[i]] for an index that is not negative. *)
Definition index {A : Type} (s : site) (l : list A) (i : nat) : result A :=
  match nth_error l i with
  | Some a => Ok a
  | None => Raise (IndexError s)
  end.

(** [del l[i]] for an index that is not negative. *)
Definition del {A : Type} (s : site) (l : list A) (i : nat)
  : result (list A) :=
  if (i <? length l)%nat then Ok (firstn i l ++ skipn (S i) l)
  else Raise (IndexError s).

(** [sum(l)] on floats. *)
Definition sum (l : list Q) : Q := fold_left Qplus l 0%Q.

(** [sum(l)] on ints. *)
Definition isum (l : list Z) : Z := fold_left Z.add l 0.

(** [[f(v) for v in l]] where [f] may raise. *)
Fixpoint comprehension {A B : Type} (f : A -> result B) (l : list A)
  : result (list B) :=
  match l with
  | [] => Ok []
  | v :: rest =>
      b <- f v ;;
      bs <- comprehension f rest ;;
      Ok (b :: bs)
  end.

End Py.

(** ** The blending schedule (lines 176-203) *)

Definition of_int (z : Z) : Q := inject_Z z.
Definition of_nat (n : nat) : Q := inject_Z (Z.of_nat n).

(** [start_point_rel] and [end_point_rel]. *)
Definition start_point_rel (week_count previous_week_count : Z) : result Q :=
  Py.div (of_int (week_count + previous_week_count) / 2)%Q (of_int week_count).

Definition end_point_rel (week_count future_week_count : Z) : result Q :=
  q <- Py.div (of_int (future_week_count - week_count) / 2)%Q (of_int week_count) ;;
  Ok (q + 1)%Q.

(** [rmp] and [smp]: the two halves of the week, in frames. *)
Definition rmp (frames_per_day : Z) : Z := Py.int (of_int frames_per_day * 3.5)%Q.
Definition smp (frames_per_day : Z) : Z := frames_per_day * 7 - rmp frames_per_day.

(** [rel_list].  [rmp_step] is only bound, and only read, when [rmp > 0]:
    the first loop runs [range(rmp)]. *)
Definition rel_list (frames_per_day : Z) (spr epr : Q) : result (list Q) :=
  first <- (if 0 <? rmp frames_per_day
            then rmp_step <- Py.div (1 - spr)%Q (of_int (rmp frames_per_day)) ;;
                 Ok (map (fun i => spr + of_nat i * rmp_step)%Q
                         (Py.range (rmp frames_per_day)))
            else Ok []) ;;
  smp_step <- Py.div (1 - epr)%Q (of_int (smp frames_per_day)) ;;
  Ok (first ++ map (fun i => 1 - of_nat i * smp_step)%Q
                   (Py.range (smp frames_per_day))).

(** [normalised_rel]: the weights scaled to sum to [week_count]. *)
Definition normalised_rel (week_count : Z) (rel : list Q) : result (list Q) :=
  Py.comprehension
    (fun val => q <- Py.div val (Py.sum rel) ;; Ok (q * of_int week_count)%Q)
    rel.

(** The value [normalised_rel] gives to one weight when nothing raises. *)
Definition scale (week_count : Z) (rel : list Q) (val : Q) : Q :=
  (val / Py.sum rel * of_int week_count)%Q.

(** The loop of lines 198-202, over the indices still to visit. *)
Fixpoint truncate_loop (nrel : list Q) (idx : list nat)
    (added : Z) (t_count : Q) (normalised_list : list Z)
  : result (Z * list Z) :=
  match idx with
  | [] => Ok (added, normalised_list)
  | i :: rest =>
      v <- Py.index at_normalised_rel nrel i ;;
      let t_count := (t_count + v)%Q in
      let int_val := Py.int t_count in
      truncate_loop nrel rest int_val t_count
                    (normalised_list ++ [int_val - added])
  end.

(** [normalised_list] of a week with [week_count > 0]. *)
Definition schedule (frames_per_day week_count previous_week_count
                     future_week_count : Z) : result (list Z) :=
  spr <- start_point_rel week_count previous_week_count ;;
  epr <- end_point_rel week_count future_week_count ;;
  rel <- rel_list frames_per_day spr epr ;;
  nrel <- normalised_rel week_count rel ;;
  r <- truncate_loop nrel (Py.range (frames_per_day * 7 - 1)) 0 0%Q [] ;;
  let '(added, normalised_list) := r in
  Ok (normalised_list ++ [week_count - added]).

(** ** Outbreaks, historical entries and frames *)

(** An element of [weekly_outbreaks]: [[cases, x, y]]. *)
Record outbreak : Type := {
  cases : Z;
  easting : Q;
  northing : Q
}.

(** An element of [historical_outbreaks]: [[size, x, y, age]], the same
    Python list as the outbreak it comes from, extended by its age.  After
    [af.extend([0])] the script never reads the list through
    [weekly_outbreaks] again, so the alias is not observable. *)
Record entry : Type := {
  magnitude : Q;
  xpos : Q;
  ypos : Q;
  age : Q
}.

(** [af.extend([0])]. *)
Definition activate (af : outbreak) : entry :=
  {| magnitude := of_int (cases af);
     xpos := easting af;
     ypos := northing af;
     age := 0%Q |}.

(** What one frame hands to the plot: the frame number, the new outbreaks
    and the historical outbreaks at the time of the plot. *)
Record frame : Type := {
  frame_no : Z;
  new_outbreaks : list entry;
  shown_history : list entry
}.

Definition weekly_decay : Q := 0.5%Q.
Definition minimum_size : Q := 0.6%Q.

(** ** Assigning the week's outbreaks to a frame (lines 224-232) *)

Record cursor : Type := {
  case_index : nat;
  r_tot : Z
}.

(** The [while] loop: [fuel] is the number of iterations left,
    [int(r_tot) - case_index] on entry. *)
Fixpoint assign_cases (weekly_outbreaks : list outbreak) (fuel : nat)
    (case_index : nat) (frame_outbreaks : list entry)
  : result (nat * list entry) :=
  match fuel with
  | O => Ok (case_index, frame_outbreaks)
  | S fuel' =>
      af <- Py.index at_weekly_outbreaks weekly_outbreaks case_index ;;
      let af := activate af in
      let frame_outbreaks :=
        if (case_index <? length weekly_outbreaks)%nat
        then frame_outbreaks ++ [af] else frame_outbreaks in
      assign_cases weekly_outbreaks fuel' (S case_index) frame_outbreaks
  end.

(** [normalised_list] is a name of the script's top level: it keeps its
    value from one week to the next and is unbound before the first week
    with outbreaks. *)
Definition read_name {A : Type} (v : option A) : result A :=
  match v with
  | Some a => Ok a
  | None => Raise NameError
  end.

Definition assign_frame (normalised_list : option (list Z))
    (weekly_outbreaks : list outbreak) (frame : nat) (c : cursor)
  : result (cursor * list entry) :=
  nl <- read_name normalised_list ;;
  n <- Py.index at_normalised_list nl frame ;;
  let r_tot := r_tot c + n in
  r <- assign_cases weekly_outbreaks
         (Z.to_nat (r_tot - Z.of_nat (case_index c))) (case_index c) [] ;;
  let '(case_index, frame_outbreaks) := r in
  Ok ({| case_index := case_index; r_tot := r_tot |}, frame_outbreaks).

(** ** Updating the historical outbreaks (lines 235-246) *)

(** An entry with its size set to [m_val] and its age advanced by one
    frame. *)
Definition aged (m_val step : Q) (e : entry) : entry :=
  {| magnitude := m_val; xpos := xpos e; ypos := ypos e;
     age := (age e + step)%Q |}.

(** The [enumerate] loop: every entry is decayed and aged; the indices of
    the entries that fell below the minimum size are collected. *)
Fixpoint decay_loop (decay_rate : Q) (frames_per_day : Z) (count : nat)
    (historical_outbreaks : list entry) : result (list nat * list entry) :=
  match historical_outbreaks with
  | [] => Ok ([], [])
  | e :: rest =>
      let m_val := (magnitude e * decay_rate)%Q in
      step <- Py.div 1%Q (of_int (frames_per_day * 7)) ;;
      r <- decay_loop decay_rate frames_per_day (S count) rest ;;
      let '(del_entry, rest') := r in
      Ok ((if Py.lt m_val minimum_size then [count] else []) ++ del_entry,
          aged m_val step e :: rest')
  end.

(** [for del_line in del_entry: del historical_outbreaks[del_line]]. *)
Fixpoint purge (del_entry : list nat) (historical_outbreaks : list entry)
  : result (list entry) :=
  match del_entry with
  | [] => Ok historical_outbreaks
  | del_line :: rest =>
      h <- Py.del at_historical_outbreaks historical_outbreaks del_line ;;
      purge rest h
  end.

Definition update_history (decay_rate : Q) (frames_per_day : Z)
    (historical_outbreaks : list entry) : result (list entry) :=
  r <- decay_loop decay_rate frames_per_day 0 historical_outbreaks ;;
  let '(del_entry, h) := r in
  purge del_entry h.

(** ** The frames of one week (lines 222-304) *)

Record film : Type := {
  frame_count : Z;
  historical_outbreaks : list entry;
  rendered : list frame
}.

(** One pass of the frame loop body. *)
Definition frame_body (decay_rate : Q) (frames_per_day : Z)
    (normalised_list : option (list Z)) (weekly_outbreaks : list outbreak)
    (frame : nat) (c : cursor) (f : film) : result (cursor * film) :=
  r <- assign_frame normalised_list weekly_outbreaks frame c ;;
  let '(c', frame_outbreaks) := r in
  let frame_count := frame_count f + 1 in
  h <- update_history decay_rate frames_per_day (historical_outbreaks f) ;;
  Ok (c', {| frame_count := frame_count;
             historical_outbreaks := h ++ frame_outbreaks;
             rendered := rendered f ++
                         [{| frame_no := frame_count;
                             new_outbreaks := frame_outbreaks;
                             shown_history := h |}] |}).

Fixpoint frame_loop (decay_rate : Q) (frames_per_day : Z)
    (normalised_list : option (list Z)) (weekly_outbreaks : list outbreak)
    (frames : list nat) (c : cursor) (f : film) : result film :=
  match frames with
  | [] => Ok f
  | frame :: rest =>
      r <- frame_body decay_rate frames_per_day normalised_list
             weekly_outbreaks frame c f ;;
      let '(c', f') := r in
      frame_loop decay_rate frames_per_day normalised_list weekly_outbreaks
                 rest c' f'
  end.

(** ** The week loop (lines 138-232) *)

(** What the pass over the data file leaves for one week: the outbreaks
    of the week and the number of rows it counted with 3 or more cases in
    the next week's column (not counted in the last week). *)
Record week_data : Type := {
  outbreaks : list outbreak;
  next_week_rows : nat
}.

Record state : Type := {
  started : bool;
  previous_week_count : Z;
  normalised_list : option (list Z);
  reel : film
}.

Definition initial_state : state :=
  {| started := false;
     previous_week_count := 0;
     normalised_list := None;
     reel := {| frame_count := 0; historical_outbreaks := []; rendered := [] |} |}.

Definition week_count (wd : week_data) : Z := Z.of_nat (length (outbreaks wd)).

Definition future_week_count (last_week : bool) (wd : week_data) : Z :=
  if last_week then week_count wd else Z.of_nat (next_week_rows wd).

Section Run.

(** [math.pow] *)
Variable math_pow : Q -> Q -> Q.

(** [random.shuffle], with the state of the generator made explicit. *)
Variable rng : Type.
Variable shuffle : rng -> list outbreak -> list outbreak * rng.

(** Line 124: the decay rate per frame. *)
Definition decay_rate (frames_per_day : Z) : result Q :=
  x <- Py.div 1%Q (of_int frames_per_day * 7)%Q ;;
  Ok (math_pow weekly_decay x).

Definition process_week (frames_per_day : Z) (decay_rate : Q)
    (last_week : bool) (wd : week_data) (st : state) (g : rng)
  : result (state * rng) :=
  let week_count := week_count wd in
  let future_week_count := future_week_count last_week wd in
  nl <- (if 0 <? week_count
         then l <- schedule frames_per_day week_count
                     (previous_week_count st) future_week_count ;;
              Ok (Some l)
         else Ok (normalised_list st)) ;;
  let started := started st || (0 <? length (outbreaks wd))%nat in
  if started then
    let '(weekly_outbreaks, g') := shuffle g (outbreaks wd) in
    f <- frame_loop decay_rate frames_per_day nl weekly_outbreaks
           (Py.range (frames_per_day * 7))
           {| case_index := 0; r_tot := 0 |} (reel st) ;;
    Ok ({| started := true; previous_week_count := week_count;
           normalised_list := nl; reel := f |}, g')
  else
    Ok ({| started := false; previous_week_count := week_count;
           normalised_list := nl; reel := reel st |}, g).

Fixpoint week_loop (frames_per_day : Z) (decay_rate : Q)
    (number_of_weeks week : nat) (data : list week_data)
    (st : state) (g : rng) : result (state * rng) :=
  match data with
  | [] => Ok (st, g)
  | wd :: rest =>
      r <- process_week frames_per_day decay_rate
             (week + 1 =? number_of_weeks)%nat wd st g ;;
      let '(st', g') := r in
      week_loop frames_per_day decay_rate number_of_weeks (S week) rest st' g'
  end.

(** The script from line 121 on: the frames it renders. *)
Definition main (frames_per_day : Z) (data : list week_data) (seed : rng)
  : result (list frame) :=
  d <- decay_rate frames_per_day ;;
  r <- week_loop frames_per_day d (length data) 0 data initial_state seed ;;
  Ok (rendered (reel (fst r))).

End Run.

(** ** The counts of the specification *)



(** The number of outbreaks the first [k] elements of a schedule release:
    the value of [r_tot] after [k] frames of a week. *)
Definition released (nl : list Z) (k : nat) : nat :=
  Z.to_nat (Py.isum (firstn k nl)).

(** ** The lifetime of historical entries *)



(** ** Sample inputs *)

(** What [math.pow(0.5, 1.0 / 7.0)] and [math.pow(0.5, 1.0 / -7.0)] return:
    the doubles nearest to the seventh root of one half and to its
    inverse. *)
Definition pow_half_seventh : Q := 8158033513759141 # 9007199254740992.
Definition pow_half_minus_seventh : Q := 4972377122365053 # 4503599627370496.

(** [math.pow] at the two exponents the sample runs use (one frame per day
    and minus one frame per day). *)
Definition sample_pow (b x : Q) : Q :=
  if Qeq_bool x (1 # 7) then pow_half_seventh
  else if Qeq_bool x (-1 # 7) then pow_half_minus_seventh
  else 1%Q.

(** A seedable shuffle: cut the list at a place the generator decides and
    step a linear congruential generator. *)
Definition sample_shuffle (g : Z) (l : list outbreak) : list outbreak * Z :=
  let k := Z.to_nat (g mod Z.of_nat (length l)) in
  (skipn k l ++ firstn k l, (g * 1103515245 + 12345) mod 2147483648).

(** [n] outbreaks of [c] cases each, and a week made of them. *)
Definition outbreak_of (c : Z) : outbreak :=
  {| cases := c; easting := 450000%Q; northing := 300000%Q |}.

Definition week_of (n : nat) (c : Z) (next : nat) : week_data :=
  {| outbreaks := repeat (outbreak_of c) n; next_week_rows := next |}.

(** A historical entry of a given size. *)
Definition entry_of (m : Q) : entry :=
  {| magnitude := m; xpos := 450000%Q; ypos := 300000%Q; age := 1%Q |}.

Definition sample_run (frames_per_day : Z) (data : list week_data)
  : result (list frame) :=
  main sample_pow Z sample_shuffle frames_per_day data 0.

(** The sizes a frame shows, in thousandths. *)
Definition sizes (h : list entry) : list Z :=
  map (fun e => Py.int (magnitude e * 1000)%Q) h.

(** * The rest of the script *)

(** ** Text *)

Module Text.

Import String Ascii.

(** The first column of the header line and of the unidentified areas. *)
Definition header : string := "lsoa11_cd"%string.
Definition unidentified : string := "xxxxxxxxx"%string.

(** [s.startswith('E')]. *)
Definition starts_with_E (s : string) : bool :=
  match s with
  | String "E"%char _ => true
  | _ => false
  end.

(** A reader of decimal numerals, as a sample of [int] and [float] on the
    columns of the files. *)
Definition digit (c : ascii) : option Z :=
  let n := Z.of_nat (nat_of_ascii c) in
  if (48 <=? n) && (n <=? 57) then Some (n - 48) else None.

Fixpoint digits (s : string) (acc : Z) : option Z :=
  match s with
  | EmptyString => Some acc
  | String c rest =>
      match digit c with
      | Some v => digits rest (10 * acc + v)
      | None => None
      end
  end.

Definition decimal (s : string) : option Z :=
  match s with
  | EmptyString => None
  | String "-"%char (String c rest) => option_map Z.opp (digits (String c rest) 0)
  | _ => digits s 0
  end.

End Text.

(** ** Reading the map (lines 99-112) *)

(** A line of a file as [csv.reader] gives it: the list of its columns. *)
Definition line : Type := list String.string.

(** What the pass over a file ends with: its result, or the [IndexError]
    of a line too short for a column read outside any [try]. *)
Inductive pass (A : Type) : Type :=
| Read (a : A)
| ColumnMissing.

Arguments Read {A} a.
Arguments ColumnMissing {A}.

(** The three lists the map is read into. *)
Record map_lists : Type := {
  x_coord : list Q;
  y_coord : list Q;
  lsoa_name : list String.string
}.

Definition no_map : map_lists :=
  {| x_coord := []; y_coord := []; lsoa_name := [] |}.

(** [lsoa_name.index(s)]: the first place of [s], [None] for the
    [ValueError]. *)
Fixpoint list_index (s : String.string) (l : list String.string) : option nat :=
  match l with
  | [] => None
  | x :: rest =>
      if String.eqb x s then Some O else option_map S (list_index s rest)
  end.

Section Files.

(** [float] and [int] on a column: [None] when they raise [ValueError]. *)
Variable py_float : String.string -> option Q.
Variable py_int : String.string -> option Z.

(** A column converted inside a [try]: [None] when the column is missing
    or the conversion raises. *)
Definition float_column (l : line) (i : nat) : option Q :=
  match nth_error l i with
  | Some s => py_float s
  | None => None
  end.

Definition int_column (l : line) (i : nat) : option Z :=
  match nth_error l i with
  | Some s => py_int s
  | None => None
  end.

(** The body of the loop over the map.  The appends made before an
    exception stay. *)
Definition load_line (l : line) (m : map_lists) : pass map_lists :=
  match nth_error l 3 with
  | None => ColumnMissing
  | Some name =>
      if Text.starts_with_E name then
        match float_column l 0 with
        | None => Read m
        | Some x =>
            let m1 := {| x_coord := x_coord m ++ [x];
                         y_coord := y_coord m;
                         lsoa_name := lsoa_name m |} in
            match float_column l 1 with
            | None => Read m1
            | Some y =>
                Read {| x_coord := x_coord m1;
                        y_coord := y_coord m1 ++ [y];
                        lsoa_name := lsoa_name m1 ++ [name] |}
            end
        end
      else Read m
  end.

Fixpoint load_map (map_data : list line) (m : map_lists) : pass map_lists :=
  match map_data with
  | [] => Read m
  | l :: rest =>
      match load_line l m with
      | Read m' => load_map rest m'
      | ColumnMissing => ColumnMissing
      end
  end.

(** ** The pass over the data of one week (lines 149-166) *)

(** [[cases, x_coord[xref], y_coord[xref]]] for the area [code]: [None]
    when the lookup raises. *)
Definition locate (m : map_lists) (code : String.string) (cases : Z)
  : option outbreak :=
  match list_index code (lsoa_name m) with
  | None => None
  | Some xref =>
      match nth_error (x_coord m) xref, nth_error (y_coord m) xref with
      | Some x, Some y => Some {| cases := cases; easting := x; northing := y |}
      | _, _ => None
      end
  end.

(** The body of the loop over the data: the outbreaks and the count of
    the next week so far.  Whatever raises inside the [try] ends the work
    on the line and keeps what was done before. *)
Definition collect_line (m : map_lists) (week : nat) (last_week : bool)
    (l : line) (acc : list outbreak * nat) : pass (list outbreak * nat) :=
  match nth_error l 0 with
  | None => ColumnMissing
  | Some code =>
      if String.eqb code Text.header || String.eqb code Text.unidentified
      then Read acc
      else
        match int_column l (week + 2) with
        | None => Read acc
        | Some n =>
            let appended :=
              if 2 <? n
              then option_map (fun o => fst acc ++ [o]) (locate m code n)
              else Some (fst acc) in
            match appended with
            | None => Read acc
            | Some weekly =>
                if last_week then Read (weekly, snd acc)
                else
                  match int_column l (week + 3) with
                  | None => Read (weekly, snd acc)
                  | Some f_cases =>
                      Read (weekly,
                            if 2 <? f_cases then S (snd acc) else snd acc)
                  end
            end
        end
  end.

Fixpoint collect_from (m : map_lists) (week : nat) (last_week : bool)
    (data : list line) (acc : list outbreak * nat)
  : pass (list outbreak * nat) :=
  match data with
  | [] => Read acc
  | l :: rest =>
      match collect_line m week last_week l acc with
      | Read acc' => collect_from m week last_week rest acc'
      | ColumnMissing => ColumnMissing
      end
  end.

Definition collect_week (m : map_lists) (week : nat) (last_week : bool)
    (data : list line) : pass week_data :=
  match collect_from m week last_week data ([], O) with
  | Read (weekly, future) =>
      Read {| outbreaks := weekly; next_week_rows := future |}
  | ColumnMissing => ColumnMissing
  end.

(** [number_of_weeks = len(data[0]) - 2]. *)
Definition number_of_weeks (data : list line) : pass Z :=
  match data with
  | [] => ColumnMissing
  | first :: _ => Read (Z.of_nat (length first) - 2)
  end.

(** ** The script as a whole *)

Variable math_pow : Q -> Q -> Q.
Variable rng : Type.
Variable shuffle : rng -> list outbreak -> list outbreak * rng.

(** The week loop with the pass over the data inside it. *)
Fixpoint script_loop (m : map_lists) (data : list line)
    (frames_per_day : Z) (d : Q) (n : nat) (weeks : list nat)
    (st : state) (g : rng) : pass (result (state * rng)) :=
  match weeks with
  | [] => Read (Ok (st, g))
  | week :: rest =>
      match collect_week m week (week + 1 =? n)%nat data with
      | ColumnMissing => ColumnMissing
      | Read wd =>
          match process_week rng shuffle frames_per_day d
                  (week + 1 =? n)%nat wd st g with
          | Raise e => Read (Raise e)
          | Ok (st', g') =>
              script_loop m data frames_per_day d n rest st' g'
          end
      end
  end.

(** From the map file to the last frame: the frames rendered, the
    exception that stops the frames, or the line too short. *)
Definition script (map_data data : list line) (frames_per_day : Z)
    (seed : rng) : pass (result (list frame)) :=
  match load_map map_data no_map with
  | ColumnMissing => ColumnMissing
  | Read m =>
      match decay_rate math_pow frames_per_day with
      | Raise e => Read (Raise e)
      | Ok d =>
          match number_of_weeks data with
          | ColumnMissing => ColumnMissing
          | Read n =>
              match script_loop m data frames_per_day d (Z.to_nat n)
                      (Py.range n) initial_state seed with
              | ColumnMissing => ColumnMissing
              | Read (Raise e) => Read (Raise e)
              | Read (Ok (st, _)) => Read (Ok (rendered (reel st)))
              end
          end
      end
  end.

End Files.

(** ** The plot of the historical outbreaks (lines 259-283) *)

(** A dot handed to [plt.scatter]: its coordinates and its area. *)
Record dot : Type := {
  dot_x : Q;
  dot_y : Q;
  dot_s : Q
}.

Definition size_factor : Q := 10%Q.

Definition dot_of (e : entry) : dot :=
  {| dot_x := xpos e; dot_y := ypos e; dot_s := (magnitude e * size_factor)%Q |}.

(** [lim]: the number of age classes, two weeks of frames. *)
Definition lim (frames_per_day : Z) : Z := frames_per_day * 14.

(** [a_hi]: the age class of an entry, its age in frames cut at the last
    class. *)
Definition age_class (frames_per_day : Z) (e : entry) : Z :=
  let a_hs := (age e * of_int frames_per_day * 7)%Q in
  let a_hi := Py.int a_hs in
  if lim frames_per_day - 1 <? a_hi then lim frames_per_day - 1 else a_hi.

(** The place [l[i]] addresses in a list, for any integer [i]: negative
    indices count from the end; [None] for the [IndexError]. *)
Definition place {A : Type} (l : list A) (i : Z) : option nat :=
  let n := Z.of_nat (length l) in
  if (0 <=? i) && (i <? n) then Some (Z.to_nat i)
  else if (i <? 0) && (- n <=? i) then Some (Z.to_nat (n + i))
  else None.

(** [l[k].append(x)]. *)
Fixpoint append_at {A : Type} (k : nat) (x : A) (l : list (list A))
  : list (list A) :=
  match l, k with
  | [], _ => []
  | b :: rest, O => (b ++ [x]) :: rest
  | b :: rest, S k' => b :: append_at k' x rest
  end.

(** The loop that sorts the historical outbreaks into their classes; the
    three lists [x_h], [y_h], [s_h] of the script are the three fields of
    the dots. *)
Fixpoint classify (frames_per_day : Z) (h : list entry)
    (classes : list (list dot)) : option (list (list dot)) :=
  match h with
  | [] => Some classes
  | e :: rest =>
      match place classes (age_class frames_per_day e) with
      | None => None
      | Some k => classify frames_per_day rest (append_at k (dot_of e) classes)
      end
  end.

(** [s_a_val]: the opacity of class [i]. *)
Definition opacity (frames_per_day : Z) (i : Z) : Q :=
  let a_val := (1 - of_int (i + 1) / of_int (lim frames_per_day + 1))%Q in
  (a_val * a_val)%Q.

(** One call of [plt.scatter] for the historical outbreaks: the class it
    draws, its dots and its opacity. *)
Record scatter : Type := {
  class_no : Z;
  dots : list dot;
  alpha : Q
}.

(** The calls of the last loop: the classes from the oldest to the
    youngest, the empty ones left out. *)
Definition scatter_calls (frames_per_day : Z) (classes : list (list dot))
  : list scatter :=
  flat_map
    (fun j =>
       let i := lim frames_per_day - (Z.of_nat j + 1) in
       match nth_error classes (Z.to_nat i) with
       | Some (d :: ds) =>
           [{| class_no := i; dots := d :: ds;
               alpha := opacity frames_per_day i |}]
       | _ => []
       end)
    (Py.range (lim frames_per_day)).

Definition plot_history (frames_per_day : Z) (h : list entry)
  : option (list scatter) :=
  match classify frames_per_day h
          (repeat [] (Z.to_nat (lim frames_per_day))) with
  | Some classes => Some (scatter_calls frames_per_day classes)
  | None => None
  end.

(** ** The name of the file of a frame (lines 254-255, 297) *)

(** The day of the date in the name, counted from February 3rd 2020, and
    the number that follows it. *)
Definition file_day (frames_per_day : Z) (week frame : nat) : Z :=
  7 * (Z.of_nat week - 1) + Py.int (of_nat frame / of_int frames_per_day)%Q.

Definition file_number (frames_per_day : Z) (frame : nat) : Z :=
  Z.of_nat frame mod frames_per_day.

(** ** What the passes over the files amount to *)

Section FilesSpec.

Variable py_float : String.string -> option Q.
Variable py_int : String.string -> option Z.

(** A line of the map of an English area whose first column converts and
    whose second does not: the loop appends to [x_coord] only. *)
Definition half_read_line (l : line) : bool :=
  match nth_error l 3, float_column py_float l 0, float_column py_float l 1 with
  | Some name, Some _, None => Text.starts_with_E name
  | _, _, _ => false
  end.

Definition half_read (map_data : list line) : nat :=
  length (filter half_read_line map_data).

(** The lines of the map the loop keeps whole: English areas with both
    coordinates. *)
Definition kept_line (l : line) : list (Q * Q * String.string) :=
  match nth_error l 3, float_column py_float l 0, float_column py_float l 1 with
  | Some name, Some x, Some y =>
      if Text.starts_with_E name then [(x, y, name)] else []
  | _, _, _ => []
  end.

Definition kept (map_data : list line) : list (Q * Q * String.string) :=
  flat_map kept_line map_data.

(** A line of the data that is neither the header nor an unidentified
    area. *)
Definition area_line (l : line) : bool :=
  match nth_error l 0 with
  | Some code =>
      negb (String.eqb code Text.header || String.eqb code Text.unidentified)
  | None => false
  end.

(** The column of week [week] of a line of an area converts. *)
Definition week_readable (week : nat) (l : line) : bool :=
  negb (area_line l) ||
  match int_column py_int l (week + 2) with
  | Some _ => true
  | None => false
  end.

(** The area of a line is on the map, with both its coordinates. *)
Definition on_map (m : map_lists) (l : line) : bool :=
  negb (area_line l) ||
  match nth_error l 0 with
  | Some code =>
      match locate m code 0 with
      | Some _ => true
      | None => false
      end
  | None => false
  end.

(** The outbreak [o] is what the line [l] reports for week [week]: an
    area with 3 cases or more, at the coordinates the lists give for the
    first place of its code. *)
Definition reports (m : map_lists) (week : nat) (l : line) (o : outbreak)
  : Prop :=
  exists code xref,
    nth_error l 0 = Some code /\
    area_line l = true /\
    int_column py_int l (week + 2) = Some (cases o) /\
    3 <= cases o /\
    list_index code (lsoa_name m) = Some xref /\
    nth_error (x_coord m) xref = Some (easting o) /\
    nth_error (y_coord m) xref = Some (northing o).


(** The weeks the pass over the data gives, for a data file without empty
    line. *)
Definition collected (m : map_lists) (data : list line) (n : nat)
  : list week_data :=
  map (fun week =>
         match collect_week py_int m week (week + 1 =? n)%nat data with
         | Read wd => wd
         | ColumnMissing => {| outbreaks := []; next_week_rows := O |}
         end)
      (seq 0 n).

End FilesSpec.

(** ** What the update of the history amounts to *)

(** An entry after the decay of one frame. *)
Definition decayed (d : Q) (frames_per_day : Z) (e : entry) : entry :=
  aged (magnitude e * d)%Q (1 / of_int (frames_per_day * 7))%Q e.

(** An entry the purge is meant to remove. *)
Definition too_small (e : entry) : bool := Py.lt (magnitude e) minimum_size.

(** The places of the entries to remove, counted from [count]: what the
    loop over the history leaves in [del_entry]. *)
Fixpoint small_places (count : nat) (h : list entry) : list nat :=
  match h with
  | [] => []
  | e :: rest =>
      (if too_small e then [count] else []) ++ small_places (S count) rest
  end.

(** The frames rendered so far are numbered from 1 without a gap, and
    [frame_count] is their number. *)
Definition numbered (f : film) : Prop :=
  frame_count f = Z.of_nat (length (rendered f)) /\
  map frame_no (rendered f) = map Z.of_nat (seq 1 (length (rendered f))).

(** No entry of the history, and no entry a rendered frame has shown,
    has a negative age. *)
Definition ages_sound (f : film) : Prop :=
  Forall (fun e => (0 <= age e)%Q) (historical_outbreaks f) /\
  Forall (fun fr => Forall (fun e => (0 <= age e)%Q) (shown_history fr))
         (rendered f).

(** ** Sample files *)

Module Sample.

Import String.

Definition to_float (s : string) : option Q := option_map inject_Z (Text.decimal s).
Definition to_int (s : string) : option Z := Text.decimal s.

Definition map_file : list line :=
  [ ["450000"; "300000"; "1"; "E01000001"];
    ["451000"; "301000"; "2"; "E01000002"];
    ["250000"; "200000"; "3"; "W01000001"];
    ["452000"; "none"; "4"; "E01000003"];
    ["453000"; "303000"; "5"; "E01000004"] ]%string.

Definition sound_map_file : list line :=
  [ ["450000"; "300000"; "1"; "E01000001"];
    ["451000"; "301000"; "2"; "E01000002"];
    ["250000"; "200000"; "3"; "W01000001"];
    ["453000"; "303000"; "5"; "E01000004"] ]%string.

Definition second_area : string := "E01000002"%string.

(** The lists read from the two sample maps. *)
Definition lists : map_lists :=
  match load_map to_float map_file no_map with
  | Read m => m
  | ColumnMissing => no_map
  end.

Definition sound_lists : map_lists :=
  match load_map to_float sound_map_file no_map with
  | Read m => m
  | ColumnMissing => no_map
  end.

Definition data_file : list line :=
  [ ["lsoa11_cd"; "lsoa11_nm"; "wk_05"; "wk_06"; "wk_07"];
    ["E01000001"; "a"; "3"; "4"; "0"];
    ["E01000002"; "b"; "-99"; "5"; "6"];
    ["E01000004"; "c"; "7"; "-99"; "3"];
    ["xxxxxxxxx"; "d"; "9"; "9"; "9"] ]%string.


End Sample.

(** ** Two runs *)





(** * Properties *)

(** ** Facts on the primitives *)

Lemma bind_Ok_inv {A B : Type} (c : result A) (k : A -> result B) (b : B) :
  bind c k = Ok b -> exists a, c = Ok a /\ k a = Ok b.
Proof.
  destruct c as [a|e]; simpl; intros H; [eauto | discriminate].
Qed.

Lemma isum_from (l : list Z) (a : Z) : fold_left Z.add l a = a + Py.isum l.
Proof.
  unfold Py.isum. revert a.
  induction l as [|x l IH]; intros a; cbn [fold_left]; [lia|].
  rewrite (IH (a + x)), (IH (0 + x)). lia.
Qed.

Lemma isum_app (l1 l2 : list Z) : Py.isum (l1 ++ l2) = Py.isum l1 + Py.isum l2.
Proof.
  unfold Py.isum at 1. rewrite fold_left_app, isum_from. reflexivity.
Qed.

Lemma isum_cons (x : Z) (l : list Z) : Py.isum (x :: l) = x + Py.isum l.
Proof. change (x :: l) with ([x] ++ l). rewrite isum_app. reflexivity. Qed.

Lemma div_Ok (a b : Q) : ~ (b == 0)%Q -> Py.div a b = Ok (a / b)%Q.
Proof.
  intros Hb. unfold Py.div.
  destruct (Qeq_bool b 0) eqn:E; [|reflexivity].
  apply Qeq_bool_iff in E. contradiction.
Qed.

Lemma index_Ok {A : Type} (s : site) (l : list A) (i : nat) :
  (i < length l)%nat ->
  exists a, Py.index s l i = Ok a /\ nth_error l i = Some a.
Proof.
  intros H. unfold Py.index.
  destruct (nth_error l i) as [a|] eqn:E; [eauto|].
  apply nth_error_None in E. lia.
Qed.

Lemma range_length (n : Z) : length (Py.range n) = Z.to_nat n.
Proof. apply length_seq. Qed.

Lemma range_bound (n : Z) (i : nat) : In i (Py.range n) -> (i < Z.to_nat n)%nat.
Proof. unfold Py.range. rewrite in_seq. lia. Qed.

Lemma comprehension_Ok {A B : Type} (f : A -> result B) (g : A -> B) (l : list A) :
  (forall v, In v l -> f v = Ok (g v)) -> Py.comprehension f l = Ok (map g l).
Proof.
  induction l as [|v l IH]; simpl; intros H; [reflexivity|].
  rewrite (H v (or_introl eq_refl)). simpl.
  rewrite IH by auto. reflexivity.
Qed.

(** ** The running-total truncation *)

Lemma truncate_loop_spec (nrel : list Q) (idx : list nat) :
  forall added t_count nl,
    (forall i, In i idx -> (i < length nrel)%nat) ->
    exists added' nl',
      truncate_loop nrel idx added t_count nl = Ok (added', nl') /\
      length nl' = (length nl + length idx)%nat /\
      Py.isum nl' - added' = Py.isum nl - added.
Proof.
  induction idx as [|i idx IH]; intros added t_count nl Hidx; simpl.
  - exists added, nl. repeat split; lia.
  - destruct (index_Ok at_normalised_rel nrel i) as (v & Hv & _); [apply Hidx; now left|].
    rewrite Hv. simpl.
    destruct (IH (Py.int (t_count + v)) (t_count + v)%Q
                 (nl ++ [Py.int (t_count + v) - added]))
      as (added' & nl' & Hrun & Hlen & Hsum); [intros; apply Hidx; now right|].
    exists added', nl'. split; [exact Hrun|]. split.
    + rewrite Hlen, length_app. simpl. lia.
    + rewrite Hsum, isum_app, isum_cons. change (Py.isum []) with 0. lia.
Qed.

(** ** The relative weights are positive *)

Local Open Scope Q_scope.

Lemma of_int_pos (n : Z) : (0 < n)%Z -> 0 < of_int n.
Proof. intros H. unfold of_int. change 0 with (inject_Z 0). now rewrite <- Zlt_Qlt. Qed.

Lemma of_nat_nonneg (i : nat) : 0 <= of_nat i.
Proof.
  unfold of_nat. change 0 with (inject_Z 0). rewrite <- Zle_Qle. lia.
Qed.

Lemma of_nat_lt (i : nat) (n : Z) : (Z.of_nat i < n)%Z -> of_nat i < of_int n.
Proof. intros H. unfold of_nat, of_int. now rewrite <- Zlt_Qlt. Qed.

Lemma first_weight_pos (s : Q) (n : Z) (i : nat) :
  0 < s -> (Z.of_nat i < n)%Z ->
  0 < s + of_nat i * ((1 - s) / of_int n).
Proof.
  intros Hs Hi.
  pose proof (of_nat_nonneg i) as H0. pose proof (of_nat_lt i n Hi) as H1.
  set (I := of_nat i) in *. set (N := of_int n) in *.
  assert (HN : 0 < N) by lra.
  assert (E : s + I * ((1 - s) / N) == (s * (N - I) + I) / N)
    by (field; lra).
  rewrite E. apply Qlt_shift_div_l; [exact HN|].
  assert (0 < s * (N - I)) by (apply Qmult_lt_0_compat; lra).
  lra.
Qed.

Lemma second_weight_pos (e : Q) (n : Z) (i : nat) :
  0 < e -> (Z.of_nat i < n)%Z ->
  0 < 1 - of_nat i * ((1 - e) / of_int n).
Proof.
  intros He Hi.
  pose proof (of_nat_nonneg i) as H0. pose proof (of_nat_lt i n Hi) as H1.
  set (I := of_nat i) in *. set (N := of_int n) in *.
  assert (HN : 0 < N) by lra.
  assert (E : 1 - I * ((1 - e) / N) == ((N - I) + I * e) / N)
    by (field; lra).
  rewrite E. apply Qlt_shift_div_l; [exact HN|].
  assert (0 <= I * e) by (apply Qmult_le_0_compat; lra).
  lra.
Qed.

Lemma start_point_rel_Ok (wc pwc : Z) :
  (0 < wc)%Z -> (0 <= pwc)%Z ->
  exists spr, start_point_rel wc pwc = Ok spr /\
              spr == of_int (wc + pwc) / (2 * of_int wc) /\ 0 < spr.
Proof.
  intros Hwc Hp. unfold start_point_rel.
  pose proof (of_int_pos wc Hwc) as HW.
  rewrite div_Ok by lra.
  eexists. split; [reflexivity|].
  assert (HS : 0 < of_int (wc + pwc)) by (apply of_int_pos; lia).
  split; [field; lra|].
  apply Qlt_shift_div_l; [exact HW|].
  rewrite Qmult_0_l. apply Qlt_shift_div_l; lra.
Qed.

Lemma end_point_rel_Ok (wc fwc : Z) :
  (0 < wc)%Z -> (0 <= fwc)%Z ->
  exists epr, end_point_rel wc fwc = Ok epr /\
              epr == of_int (fwc - wc) / (2 * of_int wc) + 1 /\ 0 < epr.
Proof.
  intros Hwc Hf. unfold end_point_rel.
  pose proof (of_int_pos wc Hwc) as HW.
  rewrite div_Ok by lra. simpl.
  eexists. split; [reflexivity|].
  split; [field; lra|].
  assert (E : of_int (fwc - wc) / 2 / of_int wc + 1
              == (of_int fwc + of_int wc) / (2 * of_int wc)).
  { unfold of_int, Z.sub. rewrite inject_Z_plus, inject_Z_opp. field. 
    fold (of_int wc). lra. }
  rewrite E.
  assert (0 <= of_int fwc).
  { unfold of_int. change 0 with (inject_Z 0). now rewrite <- Zle_Qle. }
  apply Qlt_shift_div_l; lra.
Qed.

Local Close Scope Q_scope.

(** ** The halves of the week *)

Lemma rmp_eq (frames_per_day : Z) : rmp frames_per_day = (frames_per_day * 35) ÷ 10.
Proof. reflexivity. Qed.

Lemma rmp_bounds (frames_per_day : Z) :
  1 <= frames_per_day ->
  0 < rmp frames_per_day /\ 0 < smp frames_per_day.
Proof.
  intros H. unfold smp. rewrite rmp_eq.
  rewrite Z.quot_div_nonneg by lia.
  pose proof (Z.div_mod (frames_per_day * 35) 10 ltac:(lia)).
  pose proof (Z.mod_pos_bound (frames_per_day * 35) 10 ltac:(lia)).
  lia.
Qed.

Lemma rel_list_Ok (frames_per_day : Z) (spr epr : Q) :
  1 <= frames_per_day -> (0 < spr)%Q -> (0 < epr)%Q ->
  exists rel, rel_list frames_per_day spr epr = Ok rel /\
              length rel = Z.to_nat (frames_per_day * 7) /\
              (forall v, In v rel -> (0 < v)%Q).
Proof.
  intros Hf Hs He. unfold rel_list.
  destruct (rmp_bounds frames_per_day Hf) as [Hr Hm].
  apply Z.ltb_lt in Hr as Hr'. rewrite Hr'.
  pose proof (of_int_pos _ Hr). pose proof (of_int_pos _ Hm).
  rewrite !div_Ok by lra. simpl.
  eexists. split; [reflexivity|]. split.
  - rewrite length_app, !length_map, !range_length. unfold smp in *. lia.
  - intros v Hv. apply in_app_or in Hv as [Hv|Hv];
      apply in_map_iff in Hv as (i & <- & Hi); apply range_bound in Hi.
    + apply first_weight_pos; [exact Hs | lia].
    + apply second_weight_pos; [exact He | lia].
Qed.

(** ** Normalising *)

Lemma sum_from (l : list Q) (a : Q) : (fold_left Qplus l a == a + Py.sum l)%Q.
Proof.
  unfold Py.sum. revert a.
  induction l as [|x l IH]; intros a; cbn [fold_left]; [lra|].
  rewrite (IH (a + x)%Q), (IH (0 + x)%Q). lra.
Qed.

Lemma sum_cons (x : Q) (l : list Q) : (Py.sum (x :: l) == x + Py.sum l)%Q.
Proof. unfold Py.sum at 1. cbn [fold_left]. rewrite sum_from. lra. Qed.

Lemma sum_nonneg (l : list Q) :
  (forall v, In v l -> (0 < v)%Q) -> (0 <= Py.sum l)%Q.
Proof.
  induction l as [|x l IH]; intros H.
  - unfold Py.sum. simpl. lra.
  - rewrite sum_cons.
    pose proof (H x (or_introl eq_refl)). pose proof (IH (fun v Hv => H v (or_intror Hv))).
    lra.
Qed.

Lemma sum_pos (l : list Q) :
  (forall v, In v l -> (0 < v)%Q) -> l <> [] -> (0 < Py.sum l)%Q.
Proof.
  destruct l as [|x l]; intros H Hne; [contradiction|].
  rewrite sum_cons.
  pose proof (H x (or_introl eq_refl)).
  pose proof (sum_nonneg l (fun v Hv => H v (or_intror Hv))).
  lra.
Qed.

Lemma normalised_rel_Ok (week_count : Z) (rel : list Q) :
  (forall v, In v rel -> (0 < v)%Q) ->
  normalised_rel week_count rel = Ok (map (scale week_count rel) rel).
Proof.
  intros Hpos. unfold normalised_rel.
  apply comprehension_Ok. intros v Hv.
  assert (rel <> []) by (intros ->; contradiction).
  pose proof (sum_pos rel Hpos H).
  rewrite div_Ok by lra. reflexivity.
Qed.

Example schedule_10_20_20 : schedule 1 20 10 20 = Ok [2; 2; 3; 3; 3; 3; 4].
Proof. vm_compute. reflexivity. Qed.

(** C1: in a week with outbreaks, for any number of frames per day that is
    at least 1, the schedule [normalised_list] is computed without error,
    has one element per frame of the week (7 times the frames per day) and
    its elements sum to the week's count, whatever the truncations did. *)
Theorem schedule_length_sum (frames_per_day : Z) (count previous next : nat) :
  1 <= frames_per_day -> (0 < count)%nat ->
  exists nl,
    schedule frames_per_day (Z.of_nat count) (Z.of_nat previous) (Z.of_nat next)
      = Ok nl /\
    length nl = Z.to_nat (frames_per_day * 7) /\
    Py.isum nl = Z.of_nat count.
Proof.
  intros Hf Hc. unfold schedule.
  destruct (start_point_rel_Ok (Z.of_nat count) (Z.of_nat previous))
    as (spr & -> & _ & Hs); [lia..|].
  destruct (end_point_rel_Ok (Z.of_nat count) (Z.of_nat next))
    as (epr & -> & _ & He); [lia..|].
  cbn [bind].
  destruct (rel_list_Ok frames_per_day spr epr Hf Hs He)
    as (rel & -> & Hlen & Hpos).
  cbn [bind]. rewrite (normalised_rel_Ok _ _ Hpos). cbn [bind].
  destruct (truncate_loop_spec (map (scale (Z.of_nat count) rel) rel)
              (Py.range (frames_per_day * 7 - 1)) 0 0%Q [])
    as (added & nl & -> & Hl & Hsum).
  { intros i Hi. apply range_bound in Hi. rewrite length_map, Hlen. lia. }
  cbn [bind]. eexists. split; [reflexivity|]. split.
  - rewrite length_app, Hl, range_length. simpl. lia.
  - rewrite isum_app, isum_cons. change (Py.isum []) with 0 in *. lia.
Qed.

Lemma schedule_length_sum_witness :
  exists nl, schedule 6 (Z.of_nat 20) (Z.of_nat 10) (Z.of_nat 25) = Ok nl /\
             length nl = Z.to_nat (6 * 7) /\ Py.isum nl = Z.of_nat 20.
Proof. apply (schedule_length_sum 6 20 10 25); lia. Defined.

(** ** Purging the historical outbreaks *)

(** C3 (defect): two entries fall below the minimum size in the same frame
    and a larger one follows them.  The indices to delete are [0; 1]; after
    the first deletion the second index points at the large entry, which is
    removed, and the second small entry stays. *)
Theorem purge_shifts_indices :
  update_history pow_half_seventh 1
    [entry_of 0.65; entry_of 0.65; entry_of 3]
  = Ok [aged (0.65 * pow_half_seventh) (1 / 7) (entry_of 0.65)] /\
  (0.65 * pow_half_seventh < minimum_size)%Q /\
  (minimum_size <= 3 * pow_half_seventh)%Q.
Proof.
  split; [vm_compute; reflexivity|].
  split; vm_compute; [reflexivity | discriminate].
Qed.

(** The same in a run of three weeks (8 outbreaks of 3 cases, then one of
    5, then one of 6, one frame per day): at frame 21 two entries decay
    to 0.557 and one to 0.615; the frame shows one of size 0.557 and none
    of size 0.615. *)
Example shifted_purge_in_a_run :
  exists frames,
    sample_run 1 [week_of 8 3 1; week_of 1 5 1; week_of 1 6 1] = Ok frames /\
    option_map (fun f => sizes (shown_history f)) (nth_error frames 19)
    = Some [615; 615; 679; 750; 828; 828; 2760] /\
    option_map (fun f => sizes (shown_history f)) (nth_error frames 20)
    = Some [557; 679; 750; 750; 2500].
Proof. eexists. split; [vm_compute; reflexivity|]. split; vm_compute; reflexivity. Qed.

(** The decay itself is as described: the loop multiplies every size by
    the decay rate, and a positive size shrinks when the rate is below 1. *)
Lemma decay_loop_sizes (d : Q) (frames_per_day : Z) (h : list entry) :
  forall count del_entry h',
    decay_loop d frames_per_day count h = Ok (del_entry, h') ->
    map magnitude h' = map (fun e => (magnitude e * d)%Q) h.
Proof.
  induction h as [|e h IH]; intros count del_entry h' H; cbn [decay_loop] in H.
  - injection H as _ <-. reflexivity.
  - apply bind_Ok_inv in H as (step & _ & H).
    apply bind_Ok_inv in H as ([del1 h1] & H1 & H).
    injection H as _ <-. cbn [map aged magnitude]. f_equal. eauto.
Qed.

Lemma decay_shrinks (m d : Q) : (0 < m)%Q -> (d < 1)%Q -> (m * d < m)%Q.
Proof.
  intros Hm Hd.
  assert (H : (0 < m * (1 - d))%Q) by (apply Qmult_lt_0_compat; lra).
  lra.
Qed.

(** C6 (defect): a first week of 30 outbreaks of 3 cases, then weeks of one
    outbreak each, one frame per day.  When the last entries of the first
    week fall below the minimum size together, the purge deletes past the
    end of [historical_outbreaks]: the run stops with an [IndexError] and
    the entries are never removed. *)
Theorem purge_raises :
  sample_run 1 [week_of 30 3 1; week_of 1 5 1; week_of 1 6 1; week_of 1 7 1]
  = Raise (IndexError at_historical_outbreaks) /\
  update_history pow_half_seventh 1 [entry_of 0.65; entry_of 0.65]
  = Raise (IndexError at_historical_outbreaks).
Proof. split; vm_compute; reflexivity. Qed.

(** ** Frames per day that are not positive *)

Lemma rmp_negative (frames_per_day : Z) :
  frames_per_day < 0 -> rmp frames_per_day < 0 /\ smp frames_per_day < 0.
Proof.
  intros H. unfold smp. rewrite rmp_eq.
  replace (frames_per_day * 35) with (- (- frames_per_day * 35)) by lia.
  rewrite Z.quot_opp_l by lia.
  rewrite Z.quot_div_nonneg by lia.
  pose proof (Z.div_mod (- frames_per_day * 35) 10 ltac:(lia)).
  pose proof (Z.mod_pos_bound (- frames_per_day * 35) 10 ltac:(lia)).
  lia.
Qed.

Lemma range_nonpos (n : Z) : n <= 0 -> Py.range n = [].
Proof.
  intros H. unfold Py.range.
  replace (Z.to_nat n) with O by lia. reflexivity.
Qed.

Lemma of_int_nonzero (n : Z) : n <> 0 -> ~ (of_int n == 0)%Q.
Proof.
  intros H E. unfold of_int in E. change 0%Q with (inject_Z 0) in E.
  rewrite inject_Z_injective in E. contradiction.
Qed.

Lemma schedule_negative (frames_per_day wc pwc fwc : Z) :
  frames_per_day < 0 -> 0 < wc ->
  schedule frames_per_day wc pwc fwc = Ok [wc].
Proof.
  intros Hf Hwc. unfold schedule, start_point_rel, end_point_rel.
  rewrite !div_Ok by (apply of_int_nonzero; lia). cbn [bind].
  destruct (rmp_negative frames_per_day Hf) as [Hr Hs].
  unfold rel_list.
  replace (0 <? rmp frames_per_day) with false by (symmetry; apply Z.ltb_ge; lia).
  rewrite div_Ok by (apply of_int_nonzero; lia). cbn [bind].
  rewrite (range_nonpos (smp frames_per_day)) by lia.
  rewrite (range_nonpos (frames_per_day * 7 - 1)) by lia.
  cbn. f_equal. f_equal. lia.
Qed.

Section NoFrames.

Variable math_pow : Q -> Q -> Q.
Variable rng : Type.
Variable shuffle : rng -> list outbreak -> list outbreak * rng.

Lemma process_week_negative (frames_per_day : Z) (d : Q) (last_week : bool)
    (wd : week_data) (st : state) (g : rng) :
  frames_per_day < 0 ->
  exists st' g',
    process_week rng shuffle frames_per_day d last_week wd st g = Ok (st', g') /\
    reel st' = reel st.
Proof.
  intros Hf. unfold process_week.
  assert (Hnl : exists nl,
             (if 0 <? week_count wd
              then l <- schedule frames_per_day (week_count wd)
                          (previous_week_count st) (future_week_count last_week wd) ;;
                   Ok (Some l)
              else Ok (normalised_list st)) = Ok nl).
  { destruct (0 <? week_count wd) eqn:E; [|eauto].
    apply Z.ltb_lt in E. rewrite schedule_negative by assumption. cbn. eauto. }
  destruct Hnl as (nl & ->). cbn [bind].
  destruct (started st || (0 <? length (outbreaks wd))%nat).
  - destruct (shuffle g (outbreaks wd)) as [weekly g'].
    rewrite range_nonpos by lia. cbn. eauto.
  - eauto.
Qed.

Lemma week_loop_negative (frames_per_day : Z) (d : Q) (n : nat)
    (data : list week_data) :
  frames_per_day < 0 ->
  forall week st g,
  exists st' g',
    week_loop rng shuffle frames_per_day d n week data st g = Ok (st', g') /\
    reel st' = reel st.
Proof.
  intros Hf. induction data as [|wd data IH]; intros week st g; cbn [week_loop].
  - eauto.
  - destruct (process_week_negative frames_per_day d (week + 1 =? n)%nat wd st g Hf)
      as (st1 & g1 & -> & Hreel).
    cbn [bind]. destruct (IH (S week) st1 g1) as (st2 & g2 & -> & Hreel2).
    exists st2, g2. split; [reflexivity | congruence].
Qed.

(** C4 (amended): with 0 frames per day the script stops with a
    [ZeroDivisionError] raised by the decay rate of line 124, before the
    week loop, whatever the data; with a negative number of frames per day
    nothing is raised, every week is gone through and no frame is made. *)
Theorem frames_per_day_not_positive (data : list week_data) (seed : rng) :
  decay_rate math_pow 0 = Raise ZeroDivisionError /\
  main math_pow rng shuffle 0 data seed = Raise ZeroDivisionError /\
  (forall frames_per_day, frames_per_day < 0 ->
     main math_pow rng shuffle frames_per_day data seed = Ok []).
Proof.
  split; [reflexivity|]. split; [reflexivity|].
  intros frames_per_day Hf. unfold main, decay_rate.
  rewrite div_Ok.
  - cbn [bind].
    destruct (week_loop_negative frames_per_day
                (math_pow weekly_decay (1 / (of_int frames_per_day * 7)))
                (length data) data Hf 0%nat initial_state seed)
      as (st & g & -> & Hreel).
    cbn. rewrite Hreel. reflexivity.
  - intros E. unfold of_int in E.
    assert (H : (inject_Z frames_per_day * 7 == inject_Z (frames_per_day * 7))%Q)
      by (rewrite inject_Z_mult; reflexivity).
    rewrite H in E. revert E. apply of_int_nonzero. lia.
Qed.

End NoFrames.

Lemma frames_per_day_not_positive_witness :
  decay_rate sample_pow 0 = Raise ZeroDivisionError /\
  main sample_pow Z sample_shuffle 0 [week_of 8 3 1; week_of 1 5 1] 0
  = Raise ZeroDivisionError /\
  main sample_pow Z sample_shuffle (-1) [week_of 8 3 1; week_of 1 5 1] 0 = Ok [].
Proof.
  destruct (frames_per_day_not_positive sample_pow Z sample_shuffle
              [week_of 8 3 1; week_of 1 5 1] 0) as (H1 & H2 & H3).
  split; [exact H1|]. split; [exact H2|]. apply H3. lia.
Defined.

(** C4 (counterexample): minus one frame per day is not positive, and the
    run over three weeks of data ends without any error. *)
Lemma negative_frames_per_day_no_error :
  -1 <= 0 /\
  sample_run (-1) [week_of 8 3 1; week_of 1 5 1; week_of 1 6 1] = Ok [].
Proof. split; [lia | vm_compute; reflexivity]. Qed.

(** ** The endpoints of the blending *)

Section Weeks.

Variable rng : Type.
Variable shuffle : rng -> list outbreak -> list outbreak * rng.




End Weeks.

(** ** The assignment of outbreaks to a frame *)

Lemma skipn_nth_error {A : Type} (l : list A) :
  forall i a, nth_error l i = Some a -> skipn i l = a :: skipn (S i) l.
Proof.
  induction l as [|x l IH]; intros [|i] a H; try discriminate.
  - injection H as ->. reflexivity.
  - cbn in H. apply IH in H. exact H.
Qed.

Lemma in_firstn {A : Type} (n : nat) (l : list A) (a : A) :
  In a (firstn n l) -> In a l.
Proof.
  intros H. rewrite <- (firstn_skipn n l). apply in_or_app. now left.
Qed.

Lemma in_skipn {A : Type} (n : nat) (l : list A) (a : A) :
  In a (skipn n l) -> In a l.
Proof.
  intros H. rewrite <- (firstn_skipn n l). apply in_or_app. now right.
Qed.

Lemma assign_cases_Ok_inv (weekly : list outbreak) (fuel : nat) :
  forall ci acc ci' out,
    assign_cases weekly fuel ci acc = Ok (ci', out) ->
    ci' = (ci + fuel)%nat /\
    out = acc ++ map activate (firstn fuel (skipn ci weekly)) /\
    (fuel = O \/ (ci + fuel <= length weekly)%nat).
Proof.
  induction fuel as [|fuel IH]; intros ci acc ci' out H; cbn [assign_cases] in H.
  - injection H as <- <-. rewrite app_nil_r. repeat split; auto.
  - unfold Py.index in H.
    destruct (nth_error weekly ci) as [af|] eqn:E; [|discriminate].
    cbn [bind] in H.
    assert (Hci : (ci < length weekly)%nat)
      by (apply nth_error_Some; rewrite E; discriminate).
    apply Nat.ltb_lt in Hci as Hb. rewrite Hb in H.
    apply IH in H as (-> & -> & Hle).
    rewrite (skipn_nth_error weekly ci af E). cbn [firstn map].
    rewrite <- app_assoc. cbn [app].
    repeat split; [lia|]. right. destruct Hle as [-> | Hle]; lia.
Qed.

Lemma assign_cases_Ok (weekly : list outbreak) (fuel : nat) :
  forall ci acc,
    (ci + fuel <= length weekly)%nat ->
    assign_cases weekly fuel ci acc
    = Ok ((ci + fuel)%nat, acc ++ map activate (firstn fuel (skipn ci weekly))).
Proof.
  induction fuel as [|fuel IH]; intros ci acc H; cbn [assign_cases].
  - rewrite app_nil_r, Nat.add_0_r. reflexivity.
  - destruct (index_Ok at_weekly_outbreaks weekly ci) as (af & -> & E); [lia|].
    cbn [bind].
    replace (ci <? length weekly)%nat with true by (symmetry; apply Nat.ltb_lt; lia).
    rewrite IH by lia.
    rewrite (skipn_nth_error weekly ci af E). cbn [firstn map].
    rewrite <- app_assoc. cbn [app]. do 2 f_equal. lia.
Qed.

Lemma assign_cases_Raise (weekly : list outbreak) (fuel : nat) :
  forall ci acc,
    (0 < fuel)%nat -> (length weekly < ci + fuel)%nat ->
    assign_cases weekly fuel ci acc = Raise (IndexError at_weekly_outbreaks).
Proof.
  induction fuel as [|fuel IH]; intros ci acc H0 H; [lia|].
  cbn [assign_cases]. unfold Py.index.
  destruct (nth_error weekly ci) as [af|] eqn:E; [|reflexivity].
  cbn [bind].
  assert (Hci : (ci < length weekly)%nat)
    by (apply nth_error_Some; rewrite E; discriminate).
  apply IH; lia.
Qed.

(** ** New outbreaks and the decay of the same frame *)

(** C7: in a frame, the historical outbreaks are first decayed, aged and
    purged ([update_history]); the plot shows the result; only then are the
    frame's new outbreaks appended.  Each of them enters the history as an
    outbreak of the week with its number of cases as size and age 0: it
    is neither decayed nor aged in the frame that emits it. *)
Theorem new_outbreaks_after_decay (d : Q) (frames_per_day : Z)
    (nl : option (list Z)) (weekly : list outbreak) (frame_index : nat)
    (c c' : cursor) (f f' : film) :
  frame_body d frames_per_day nl weekly frame_index c f = Ok (c', f') ->
  exists h fr,
    update_history d frames_per_day (historical_outbreaks f) = Ok h /\
    rendered f' = rendered f ++ [fr] /\
    shown_history fr = h /\
    historical_outbreaks f' = h ++ new_outbreaks fr /\
    Forall (fun e => exists af, In af weekly /\ e = activate af)
           (new_outbreaks fr).
Proof.
  unfold frame_body, assign_frame. intros H.
  apply bind_Ok_inv in H as ([c1 fo] & Ha & H).
  apply bind_Ok_inv in H as (h & Hh & H).
  injection H as <- <-.
  exists h. eexists. split; [exact Hh|]. cbn.
  split; [reflexivity|]. split; [reflexivity|]. split; [reflexivity|].
  apply bind_Ok_inv in Ha as (l & _ & Ha).
  apply bind_Ok_inv in Ha as (n & _ & Ha).
  apply bind_Ok_inv in Ha as ([ci out] & Hc & Ha).
  injection Ha as _ <-.
  apply assign_cases_Ok_inv in Hc as (_ & -> & _). cbn [app].
  apply Forall_forall. intros e He.
  apply in_map_iff in He as (af & <- & Haf).
  exists af. split; [|reflexivity].
  apply in_firstn in Haf. apply (in_skipn _ _ _ Haf).
Qed.

Lemma new_outbreaks_after_decay_witness :
  exists c' f' h fr,
    frame_body pow_half_seventh 1 (Some [1; 1]) [outbreak_of 3; outbreak_of 4]
      1 {| case_index := 1; r_tot := 1 |}
      {| frame_count := 1; historical_outbreaks := [activate (outbreak_of 3)];
         rendered := [] |} = Ok (c', f') /\
    update_history pow_half_seventh 1 [activate (outbreak_of 3)] = Ok h /\
    rendered f' = [] ++ [fr] /\
    shown_history fr = h /\
    historical_outbreaks f' = h ++ new_outbreaks fr /\
    Forall (fun e => exists af, In af [outbreak_of 3; outbreak_of 4] /\
                                e = activate af) (new_outbreaks fr).
Proof.
  eexists. eexists.
  assert (H : frame_body pow_half_seventh 1 (Some [1; 1])
                [outbreak_of 3; outbreak_of 4]
                1 {| case_index := 1; r_tot := 1 |}
                {| frame_count := 1;
                   historical_outbreaks := [activate (outbreak_of 3)];
                   rendered := [] |} = Ok (_, _))
    by (vm_compute; reflexivity).
  destruct (new_outbreaks_after_decay _ _ _ _ _ _ _ _ _ H)
    as (h & fr & H1 & H2 & H3 & H4 & H5).
  exists h, fr. split; [exact H|]. repeat split; assumption.
Defined.

(** ** The lifetime of an entry of size 10 *)

Local Open Scope Q_scope.







Section SeventhRoot.

Variable d : Q.
Hypothesis d_pos : 0 < d.
Hypothesis d_root : Qabs (d ^ 7 - weekly_decay) <= 1 # 1000000000.








End SeventhRoot.

Local Close Scope Q_scope.




(** ** The schedule never runs ahead of the week's count *)

Lemma int_floor (x : Q) : (0 <= x)%Q -> Py.int x = Qfloor x.
Proof.
  destruct x as [n p]. unfold Qle, Py.int. cbn. intros H.
  apply Z.quot_div_nonneg; lia.
Qed.

Lemma int_mono (x y : Q) : (0 <= x)%Q -> (x <= y)%Q -> Py.int x <= Py.int y.
Proof.
  intros Hx Hxy. rewrite !int_floor by lra. now apply Qfloor_resp_le.
Qed.

Lemma int_of_int (z : Z) : 0 <= z -> Py.int (of_int z) = z.
Proof.
  intros H. rewrite int_floor.
  - apply Qfloor_Z.
  - unfold of_int. change 0%Q with (inject_Z 0). now rewrite <- Zle_Qle.
Qed.

Lemma sum_app (l1 l2 : list Q) : (Py.sum (l1 ++ l2) == Py.sum l1 + Py.sum l2)%Q.
Proof.
  unfold Py.sum at 1. rewrite fold_left_app, sum_from. reflexivity.
Qed.

Lemma sum_nonneg' (l : list Q) :
  (forall v, In v l -> (0 <= v)%Q) -> (0 <= Py.sum l)%Q.
Proof.
  induction l as [|x l IH]; intros H.
  - unfold Py.sum. cbn. lra.
  - rewrite sum_cons.
    pose proof (H x (or_introl eq_refl)).
    pose proof (IH (fun v Hv => H v (or_intror Hv))). lra.
Qed.

Lemma sum_firstn_le (l : list Q) (k : nat) :
  (forall v, In v l -> (0 <= v)%Q) -> (Py.sum (firstn k l) <= Py.sum l)%Q.
Proof.
  intros H. rewrite <- (firstn_skipn k l) at 2. rewrite sum_app.
  assert (0 <= Py.sum (skipn k l))%Q.
  { apply sum_nonneg'. intros v Hv. apply H. apply (in_skipn _ _ _ Hv). }
  lra.
Qed.

Lemma sum_scale (s w : Q) (l : list Q) :
  ~ (s == 0)%Q ->
  (Py.sum (map (fun v => v / s * w) l) == Py.sum l / s * w)%Q.
Proof.
  intros Hs. induction l as [|x l IH].
  - unfold Py.sum. cbn. field. exact Hs.
  - cbn [map]. rewrite !sum_cons, IH. field. exact Hs.
Qed.

Lemma firstn_S_nth_error {A : Type} (l : list A) :
  forall k a, nth_error l k = Some a -> firstn (S k) l = firstn k l ++ [a].
Proof.
  induction l as [|x l IH]; intros [|k] a H; try discriminate.
  - injection H as ->. reflexivity.
  - cbn in H. rewrite (firstn_cons (S k)), (firstn_cons k), (IH k a H).
    reflexivity.
Qed.

Lemma truncate_loop_mono (nrel : list Q) :
  (forall v, In v nrel -> (0 <= v)%Q) ->
  forall n a t nl,
    (a + n <= length nrel)%nat ->
    (t == Py.sum (firstn a nrel))%Q ->
    Forall (fun x => 0 <= x) nl ->
    exists t' nl',
      truncate_loop nrel (seq a n) (Py.int t) t nl = Ok (Py.int t', nl') /\
      Forall (fun x => 0 <= x) nl' /\
      (t' == Py.sum (firstn (a + n) nrel))%Q.
Proof.
  intros Hpos. induction n as [|n IH]; intros a t nl Hlen Ht Hnl.
  - exists t, nl. rewrite Nat.add_0_r. repeat split; assumption.
  - cbn [seq truncate_loop].
    destruct (index_Ok at_normalised_rel nrel a) as (v & -> & Ev); [lia|].
    cbn [bind].
    assert (Hv : (0 <= v)%Q) by (apply Hpos; eapply nth_error_In; eauto).
    assert (H0 : (0 <= t)%Q).
    { rewrite Ht. apply sum_nonneg'. intros x Hx. apply Hpos.
      apply (in_firstn _ _ _ Hx). }
    destruct (IH (S a) (t + v)%Q (nl ++ [Py.int (t + v) - Py.int t]))
      as (t' & nl' & Hrun & Hnl' & Ht'); [lia | |  |].
    + rewrite (firstn_S_nth_error nrel a v Ev), sum_app, Ht.
      rewrite sum_cons. unfold Py.sum at 3. cbn. lra.
    + apply Forall_app. split; [exact Hnl|].
      constructor; [|constructor].
      pose proof (int_mono t (t + v)%Q H0 ltac:(lra)). lia.
    + exists t', nl'. split; [exact Hrun|]. split; [exact Hnl'|].
      rewrite Ht'. replace (S a + n)%nat with (a + S n)%nat by lia. reflexivity.
Qed.

(** The schedule of a week with outbreaks: one element per frame, none of
    them negative, summing to the week's count. *)
Lemma schedule_spec (frames_per_day : Z) (count previous next : nat) :
  1 <= frames_per_day -> (0 < count)%nat ->
  exists nl,
    schedule frames_per_day (Z.of_nat count) (Z.of_nat previous) (Z.of_nat next)
      = Ok nl /\
    length nl = Z.to_nat (frames_per_day * 7) /\
    Py.isum nl = Z.of_nat count /\
    Forall (fun x => 0 <= x) nl.
Proof.
  intros Hf Hc. unfold schedule.
  destruct (start_point_rel_Ok (Z.of_nat count) (Z.of_nat previous))
    as (spr & -> & _ & Hs); [lia..|].
  destruct (end_point_rel_Ok (Z.of_nat count) (Z.of_nat next))
    as (epr & -> & _ & He); [lia..|].
  cbn [bind].
  destruct (rel_list_Ok frames_per_day spr epr Hf Hs He)
    as (rel & -> & Hlen & Hpos).
  cbn [bind]. rewrite (normalised_rel_Ok _ _ Hpos). cbn [bind].
  set (W := Z.of_nat count) in *.
  set (nrel := map (scale W rel) rel).
  assert (Hrel : rel <> []).
  { intros ->. cbn in Hlen. lia. }
  pose proof (sum_pos rel Hpos Hrel) as HS.
  pose proof (of_int_pos W ltac:(lia)) as HW.
  assert (Hnn : forall v, In v nrel -> (0 <= v)%Q).
  { intros v Hv. apply in_map_iff in Hv as (x & <- & Hx). unfold scale.
    apply Qlt_le_weak. apply Qmult_lt_0_compat; [|exact HW].
    apply Qlt_shift_div_l; [exact HS|]. rewrite Qmult_0_l. auto. }
  assert (Hsum : (Py.sum nrel == of_int W)%Q).
  { unfold nrel, scale. rewrite sum_scale by lra. field. lra. }
  destruct (truncate_loop_mono nrel Hnn (Z.to_nat (frames_per_day * 7 - 1))
              0 0%Q [])
    as (t' & nl & Hrun & Hnl & Ht').
  { unfold nrel. rewrite length_map, Hlen. lia. }
  { reflexivity. }
  { constructor. }
  change (Py.int 0) with 0 in Hrun. unfold Py.range. rewrite Hrun. cbn [bind].
  destruct (truncate_loop_spec nrel (seq 0 (Z.to_nat (frames_per_day * 7 - 1)))
              0 0%Q [])
    as (added & nl0 & Hrun0 & Hl & Hadd).
  { intros i Hi. apply in_seq in Hi. unfold nrel. rewrite length_map, Hlen. lia. }
  rewrite Hrun in Hrun0. injection Hrun0 as <- <-.
  assert (Hle : Py.int t' <= W).
  { rewrite <- (int_of_int W) by lia.
    assert (0 <= t')%Q.
    { rewrite Ht'. apply sum_nonneg'. intros x Hx. apply Hnn.
      apply (in_firstn _ _ _ Hx). }
    apply int_mono; [assumption|].
    rewrite Ht', <- Hsum. apply sum_firstn_le. exact Hnn. }
  eexists. split; [reflexivity|]. split; [|split].
  - rewrite length_app, Hl, length_seq. cbn. lia.
  - rewrite isum_app, isum_cons. change (Py.isum []) with 0 in *. lia.
  - apply Forall_app. split; [exact Hnl|]. constructor; [lia|constructor].
Qed.

Lemma isum_nonneg (l : list Z) : Forall (fun x => 0 <= x) l -> 0 <= Py.isum l.
Proof.
  induction 1 as [|x l Hx _ IH]; [reflexivity|]. rewrite isum_cons. lia.
Qed.

Lemma Forall_firstn {A : Type} (P : A -> Prop) (k : nat) (l : list A) :
  Forall P l -> Forall P (firstn k l).
Proof.
  rewrite !Forall_forall. intros H a Ha. apply H. apply (in_firstn _ _ _ Ha).
Qed.

Lemma Forall_skipn {A : Type} (P : A -> Prop) (k : nat) (l : list A) :
  Forall P l -> Forall P (skipn k l).
Proof.
  rewrite !Forall_forall. intros H a Ha. apply H. apply (in_skipn _ _ _ Ha).
Qed.

Lemma isum_firstn_bounds (l : list Z) (k : nat) :
  Forall (fun x => 0 <= x) l ->
  0 <= Py.isum (firstn k l) <= Py.isum l.
Proof.
  intros H. rewrite <- (firstn_skipn k l) at 3. rewrite isum_app.
  pose proof (isum_nonneg _ (Forall_firstn _ k l H)).
  pose proof (isum_nonneg _ (Forall_skipn _ k l H)). lia.
Qed.

Lemma firstn_add {A : Type} (x y : nat) (l : list A) :
  firstn (x + y) l = firstn x l ++ firstn y (skipn x l).
Proof.
  revert l. induction x as [|x IH]; intros l; [reflexivity|].
  destruct l as [|a l]; cbn [Nat.add firstn skipn app].
  - now rewrite firstn_nil.
  - now rewrite IH.
Qed.

Lemma purge_exn (del_entry : list nat) :
  forall h e, purge del_entry h = Raise e -> e = IndexError at_historical_outbreaks.
Proof.
  induction del_entry as [|i rest IH]; intros h e H; cbn [purge] in H;
    [discriminate|].
  unfold Py.del in H. destruct (i <? length h)%nat.
  - cbn [bind] in H. eapply IH; eauto.
  - cbn in H. now injection H as <-.
Qed.

Lemma decay_loop_Ok (d : Q) (frames_per_day : Z) (h : list entry) :
  frames_per_day <> 0 ->
  forall count, exists r, decay_loop d frames_per_day count h = Ok r.
Proof.
  intros Hf. induction h as [|e h IH]; intros count; cbn [decay_loop].
  - eauto.
  - rewrite div_Ok by (apply of_int_nonzero; lia). cbn [bind].
    destruct (IH (S count)) as ([del_entry h'] & ->). cbn. eauto.
Qed.

Lemma update_history_exn (d : Q) (frames_per_day : Z) (h : list entry) (e : exn) :
  frames_per_day <> 0 ->
  update_history d frames_per_day h = Raise e ->
  e = IndexError at_historical_outbreaks.
Proof.
  intros Hf. unfold update_history.
  destruct (decay_loop_Ok d frames_per_day h Hf 0%nat) as ([del_entry h'] & ->).
  cbn [bind]. apply purge_exn.
Qed.

Section Assignment.

Variable d : Q.
Variable frames_per_day : Z.
Variable nl : list Z.
Variable weekly : list outbreak.

Hypothesis frames_nonzero : frames_per_day <> 0.
Hypothesis nl_nonneg : Forall (fun x => 0 <= x) nl.
Hypothesis nl_sum : Py.isum nl = Z.of_nat (length weekly).

Lemma released_S (k : nat) (n : Z) :
  nth_error nl k = Some n ->
  0 <= n /\
  Py.isum (firstn (S k) nl) = Py.isum (firstn k nl) + n /\
  released nl (S k) = (released nl k + Z.to_nat n)%nat /\
  (released nl (S k) <= length weekly)%nat.
Proof.
  intros H.
  assert (Hn : 0 <= n).
  { rewrite Forall_forall in nl_nonneg. apply nl_nonneg.
    eapply nth_error_In; eauto. }
  pose proof (isum_firstn_bounds nl k nl_nonneg) as Hk.
  pose proof (isum_firstn_bounds nl (S k) nl_nonneg) as HSk.
  assert (E : Py.isum (firstn (S k) nl) = Py.isum (firstn k nl) + n).
  { rewrite (firstn_S_nth_error nl k n H), isum_app, isum_cons.
    change (Py.isum []) with 0. lia. }
  unfold released. repeat split; try assumption; lia.
Qed.

Lemma frame_loop_assigns :
  forall m k c f,
    (k + m <= length nl)%nat ->
    case_index c = released nl k ->
    r_tot c = Py.isum (firstn k nl) ->
    match frame_loop d frames_per_day (Some nl) weekly (seq k m) c f with
    | Raise e => e = IndexError at_historical_outbreaks
    | Ok f' =>
        exists fresh,
          rendered f' = rendered f ++ fresh /\
          length fresh = m /\
          map activate (firstn (released nl k) weekly)
            ++ concat (map new_outbreaks fresh)
          = map activate (firstn (released nl (k + m)) weekly)
    end.
Proof.
  induction m as [|m IH]; intros k c f Hlen Hci Hr.
  - cbn. exists []. rewrite !app_nil_r, Nat.add_0_r. auto.
  - cbn [seq frame_loop]. unfold frame_body, assign_frame. cbn [read_name bind].
    destruct (index_Ok at_normalised_list nl k) as (n & -> & En); [lia|].
    cbn [bind].
    destruct (released_S k n En) as (Hn & Hsum & Hrel & Hle).
    pose proof (isum_firstn_bounds nl k nl_nonneg) as Hk.
    replace (Z.to_nat (r_tot c + n - Z.of_nat (case_index c)))
      with (Z.to_nat n) by (rewrite Hci, Hr; unfold released; lia).
    rewrite assign_cases_Ok by (rewrite Hci; lia). cbn [bind app].
    destruct (update_history d frames_per_day (historical_outbreaks f))
      as [h|e] eqn:Eh; cbn [bind].
    + match goal with
      | |- match frame_loop _ _ _ _ _ ?c1 ?f1 with _ => _ end =>
          specialize (IH (S k) c1 f1)
      end.
      cbn [case_index r_tot rendered] in IH.
      specialize (IH ltac:(lia) ltac:(rewrite Hci; lia) ltac:(rewrite Hr; lia)).
      destruct (frame_loop d frames_per_day (Some nl) weekly (seq (S k) m) _ _)
        as [f'|e]; [|exact IH].
      destruct IH as (fresh & Hren & Hfl & Hcat).
      eexists (_ :: fresh). split; [rewrite Hren, <- app_assoc; reflexivity|].
      split; [cbn; lia|].
      cbn [map concat new_outbreaks].
      replace (k + S m)%nat with (S k + m)%nat by lia.
      rewrite <- Hcat, Hrel, Hci, firstn_add, map_app, <- !app_assoc.
      reflexivity.
    + eapply update_history_exn; eauto.
Qed.

End Assignment.

(** C10: in a week with outbreaks, with at least one frame per day, the
    sum of the schedule elements consumed so far stays between 0 and the
    week's count.  Hence the frame loop never indexes [weekly_outbreaks]
    out of range: whatever number [m] of the week's frames is run, the loop
    either ends, and the new outbreaks of its frames, put end to end, are
    the first outbreaks of the shuffled list, each position taken once and
    in one frame, or it stops on the purge of the historical outbreaks. *)
Theorem assignment_stays_in_range (d : Q) (frames_per_day : Z)
    (weekly : list outbreak) (previous next : nat) (nl : list Z) (f : film) :
  1 <= frames_per_day -> weekly <> [] ->
  schedule frames_per_day (Z.of_nat (length weekly)) (Z.of_nat previous)
    (Z.of_nat next) = Ok nl ->
  (forall k, 0 <= Py.isum (firstn k nl) <= Z.of_nat (length weekly)) /\
  Py.range (frames_per_day * 7) = seq 0 (length nl) /\
  (forall m, (m <= length nl)%nat ->
     match frame_loop d frames_per_day (Some nl) weekly (seq 0 m)
             {| case_index := 0; r_tot := 0 |} f with
     | Raise e => e = IndexError at_historical_outbreaks
     | Ok f' =>
         exists fresh,
           rendered f' = rendered f ++ fresh /\
           length fresh = m /\
           concat (map new_outbreaks fresh)
           = map activate (firstn (released nl m) weekly)
     end).
Proof.
  intros Hf Hne Hs.
  assert (Hc : (0 < length weekly)%nat) by (destruct weekly; [contradiction|cbn; lia]).
  destruct (schedule_spec frames_per_day (length weekly) previous next Hf Hc)
    as (nl' & Hs' & Hlen & Hsum & Hnn).
  rewrite Hs in Hs'. injection Hs' as <-.
  split; [|split].
  - intros k. rewrite <- Hsum. apply isum_firstn_bounds. exact Hnn.
  - unfold Py.range. now rewrite Hlen.
  - intros m Hm.
    pose proof (frame_loop_assigns d frames_per_day nl weekly ltac:(lia) Hnn Hsum
                  m 0%nat {| case_index := 0; r_tot := 0 |} f Hm eq_refl eq_refl)
      as H.
    cbn [firstn map app Nat.add] in H. exact H.
Qed.

Lemma assignment_stays_in_range_witness :
  (forall k, 0 <= Py.isum (firstn k [0; 0; 0; 1; 0; 0; 1])
             <= Z.of_nat (length [outbreak_of 3; outbreak_of 4])) /\
  Py.range (1 * 7) = seq 0 (length [0; 0; 0; 1; 0; 0; 1]) /\
  (forall m, (m <= length [0; 0; 0; 1; 0; 0; 1])%nat ->
     match frame_loop pow_half_seventh 1 (Some [0; 0; 0; 1; 0; 0; 1])
             [outbreak_of 3; outbreak_of 4] (seq 0 m)
             {| case_index := 0; r_tot := 0 |} (reel initial_state) with
     | Raise e => e = IndexError at_historical_outbreaks
     | Ok f' =>
         exists fresh,
           rendered f' = rendered (reel initial_state) ++ fresh /\
           length fresh = m /\
           concat (map new_outbreaks fresh)
           = map activate
               (firstn (released [0; 0; 0; 1; 0; 0; 1] m)
                       [outbreak_of 3; outbreak_of 4])
     end).
Proof.
  apply (assignment_stays_in_range pow_half_seventh 1
           [outbreak_of 3; outbreak_of 4] 0 1 [0; 0; 0; 1; 0; 0; 1]
           (reel initial_state)).
  - lia.
  - discriminate.
  - vm_compute. reflexivity.
Defined.

(** The same for the week as the script runs it, with any shuffle that
    keeps the length of the list: a week with outbreaks can only stop on
    the purge of the historical outbreaks. *)
Lemma week_with_outbreaks_index_safe (rng : Type)
    (shuffle : rng -> list outbreak -> list outbreak * rng)
    (frames_per_day : Z) (d : Q) (last_week : bool) (wd : week_data)
    (st : state) (g : rng) (e : exn) :
  (forall g l, length (fst (shuffle g l)) = length l) ->
  1 <= frames_per_day -> outbreaks wd <> [] -> 0 <= previous_week_count st ->
  process_week rng shuffle frames_per_day d last_week wd st g = Raise e ->
  e = IndexError at_historical_outbreaks.
Proof.
  intros Hsh Hf Hne Hprev. unfold process_week.
  assert (Hc : (0 < length (outbreaks wd))%nat)
    by (destruct (outbreaks wd); [contradiction | cbn; lia]).
  assert (Hfut : 0 <= future_week_count last_week wd)
    by (unfold future_week_count, week_count; destruct last_week; lia).
  destruct (schedule_spec frames_per_day (length (outbreaks wd))
              (Z.to_nat (previous_week_count st))
              (Z.to_nat (future_week_count last_week wd)) Hf Hc)
    as (nl & Hs & Hlen & Hsum & Hnn).
  rewrite !Z2Nat.id in Hs by assumption.
  fold (week_count wd) in Hs.
  replace (0 <? week_count wd) with true
    by (symmetry; apply Z.ltb_lt; unfold week_count; lia).
  rewrite Hs. cbn [bind].
  replace (0 <? length (outbreaks wd))%nat with true
    by (symmetry; apply Nat.ltb_lt; exact Hc).
  rewrite orb_true_r.
  pose proof (Hsh g (outbreaks wd)) as Hl.
  destruct (shuffle g (outbreaks wd)) as [weekly g']. cbn [fst] in Hl.
  unfold Py.range. rewrite <- Hlen.
  pose proof (frame_loop_assigns d frames_per_day nl weekly ltac:(lia) Hnn
                ltac:(rewrite Hsum, Hl; reflexivity)
                (length nl) 0%nat {| case_index := 0; r_tot := 0 |} (reel st)
                (Nat.le_refl _) eq_refl eq_refl) as H.
  destruct (frame_loop d frames_per_day (Some nl) weekly (seq 0 (length nl)) _ _)
    as [f'|e']; cbn [bind]; [discriminate|].
  intros E. injection E as <-. exact H.
Qed.

(** ** A week without outbreaks after the start *)

(** Whatever the history, a week without outbreaks that follows the start
    cannot be completed: the schedule left in [normalised_list] still
    releases outbreaks and [weekly_outbreaks] is empty. *)
Lemma frame_loop_empty_week (d : Q) (frames_per_day : Z) (nl : list Z) :
  Forall (fun x => 0 <= x) nl ->
  forall m k f,
    (k + m = length nl)%nat ->
    0 < Py.isum (skipn k nl) ->
    exists e,
      frame_loop d frames_per_day (Some nl) [] (seq k m)
        {| case_index := 0; r_tot := 0 |} f = Raise e.
Proof.
  intros Hnn. induction m as [|m IH]; intros k f Hlen Hsum.
  - rewrite skipn_all2 in Hsum by lia. discriminate.
  - cbn [seq frame_loop]. unfold frame_body, assign_frame.
    cbn [read_name bind case_index r_tot].
    destruct (index_Ok at_normalised_list nl k) as (n & -> & En); [lia|].
    cbn [bind].
    assert (Hn : 0 <= n).
    { rewrite Forall_forall in Hnn. apply Hnn. eapply nth_error_In; eauto. }
    rewrite (skipn_nth_error nl k n En), isum_cons in Hsum.
    destruct (Z.eq_dec n 0) as [-> | Hn0].
    + change (Z.to_nat (0 + 0 - Z.of_nat 0)) with 0%nat.
      cbn [assign_cases bind Z.add].
      destruct (update_history d frames_per_day (historical_outbreaks f))
        as [h|e]; cbn [bind]; [|eexists; reflexivity].
      apply IH; lia.
    + rewrite assign_cases_Raise; [cbn; eauto | lia | cbn; lia].
Qed.

(** X19: once the run has started and the schedule in [normalised_list]
    still releases outbreaks, a week without outbreaks cannot be completed,
    whatever the history, the shuffle and the place of the week: its frame
    loop stops on an exception. *)
Lemma quiet_week_always_raises (rng : Type)
    (shuffle : rng -> list outbreak -> list outbreak * rng)
    (frames_per_day : Z) (d : Q) (last_week : bool) (wd : week_data)
    (st : state) (g : rng) (nl : list Z) :
  (forall g l, length (fst (shuffle g l)) = length l) ->
  started st = true ->
  normalised_list st = Some nl ->
  Forall (fun x => 0 <= x) nl ->
  length nl = Z.to_nat (frames_per_day * 7) ->
  0 < Py.isum nl ->
  outbreaks wd = [] ->
  exists e, process_week rng shuffle frames_per_day d last_week wd st g = Raise e.
Proof.
  intros Hsh Hst Hnl Hnn Hlen Hsum Hwd.
  unfold process_week, week_count. rewrite Hwd, Hst, Hnl. cbn [length Z.of_nat].
  cbn [Z.ltb Z.compare bind orb].
  pose proof (Hsh g []) as Hl.
  destruct (shuffle g []) as [weekly g']. cbn in Hl.
  destruct weekly; [|discriminate].
  unfold Py.range. rewrite <- Hlen.
  destruct (frame_loop_empty_week d frames_per_day nl Hnn (length nl) 0 (reel st)
              eq_refl Hsum) as (e & ->).
  cbn. eauto.
Qed.

(** C2 (defect): the second week has no outbreak, the first had one.  The
    schedule of the first week is still in [normalised_list]; at the frame
    where it releases an outbreak the script reads [weekly_outbreaks[0]]
    from the empty list and stops with an [IndexError]. *)
Theorem quiet_week_raises :
  sample_run 1 [week_of 1 3 0; week_of 0 3 0]
  = Raise (IndexError at_weekly_outbreaks).
Proof. vm_compute. reflexivity. Qed.

(** * Properties of the rest of the script *)

(** ** The map *)

Section MapFile.

Variable py_float : String.string -> option Q.

Local Open Scope nat_scope.

Lemma load_line_lengths (l : line) (m m' : map_lists) :
  load_line py_float l m = Read m' ->
  length (y_coord m') + length (lsoa_name m)
  = length (y_coord m) + length (lsoa_name m') /\
  length (x_coord m') + length (lsoa_name m)
  = length (x_coord m) + length (lsoa_name m')
    + (if half_read_line py_float l then 1 else 0).
Proof.
  unfold load_line, half_read_line.
  destruct (nth_error l 3) as [name|]; [|discriminate].
  destruct (Text.starts_with_E name).
  - destruct (float_column py_float l 0) as [x|].
    + destruct (float_column py_float l 1) as [y|]; intros H; injection H as <-;
        cbn; rewrite ?length_app; cbn; lia.
    + intros H; injection H as <-. lia.
  - destruct (float_column py_float l 0), (float_column py_float l 1);
      intros H; injection H as <-; lia.
Qed.

Lemma load_map_lengths_from (map_data : list line) :
  forall m m',
    load_map py_float map_data m = Read m' ->
    length (y_coord m') + length (lsoa_name m)
    = length (y_coord m) + length (lsoa_name m') /\
    length (x_coord m') + length (lsoa_name m)
    = length (x_coord m) + length (lsoa_name m') + half_read py_float map_data.
Proof.
  induction map_data as [|l rest IH]; intros m m' H; cbn [load_map] in H.
  - injection H as <-. unfold half_read. cbn. lia.
  - destruct (load_line py_float l m) as [m1|] eqn:E; [|discriminate].
    apply load_line_lengths in E. apply IH in H.
    unfold half_read in *. cbn [filter].
    destruct (half_read_line py_float l); cbn [length]; lia.
Qed.

(** X1: after the map is read, [y_coord] and [lsoa_name] have the same
    length, and [x_coord] is longer by the number of lines of English areas
    whose first coordinate converts and whose second does not. *)
Theorem load_map_lengths (map_data : list line) (m : map_lists) :
  load_map py_float map_data no_map = Read m ->
  length (y_coord m) = length (lsoa_name m) /\
  length (x_coord m) = length (lsoa_name m) + half_read py_float map_data.
Proof.
  intros H. apply load_map_lengths_from in H. cbn in H. lia.
Qed.

Lemma load_line_kept (l : line) (m m' : map_lists) :
  load_line py_float l m = Read m' ->
  y_coord m' = y_coord m ++ map (fun k => snd (fst k)) (kept_line py_float l) /\
  lsoa_name m' = lsoa_name m ++ map snd (kept_line py_float l) /\
  (half_read_line py_float l = false ->
   x_coord m' = x_coord m ++ map (fun k => fst (fst k)) (kept_line py_float l)).
Proof.
  unfold load_line, half_read_line, kept_line.
  destruct (nth_error l 3) as [name|]; [|discriminate].
  destruct (Text.starts_with_E name).
  - destruct (float_column py_float l 0) as [x|].
    + destruct (float_column py_float l 1) as [y|]; intros H; injection H as <-;
        cbn; rewrite ?app_nil_r; repeat split; auto; discriminate.
    + intros H; injection H as <-. cbn. rewrite ?app_nil_r. auto.
  - destruct (float_column py_float l 0), (float_column py_float l 1);
      intros H; injection H as <-; cbn; rewrite ?app_nil_r; auto.
Qed.

Lemma load_map_kept_from (map_data : list line) :
  forall m m',
    load_map py_float map_data m = Read m' ->
    y_coord m' = y_coord m ++ map (fun k => snd (fst k)) (kept py_float map_data) /\
    lsoa_name m' = lsoa_name m ++ map snd (kept py_float map_data) /\
    (half_read py_float map_data = 0 ->
     x_coord m' = x_coord m ++ map (fun k => fst (fst k)) (kept py_float map_data)).
Proof.
  induction map_data as [|l rest IH]; intros m m' H; cbn [load_map] in H.
  - injection H as <-. cbn. rewrite !app_nil_r. auto.
  - destruct (load_line py_float l m) as [m1|] eqn:E; [|discriminate].
    apply load_line_kept in E as (Ey & En & Ex).
    apply IH in H as (Hy & Hn & Hx).
    unfold kept in *. cbn [flat_map]. rewrite !map_app.
    split; [rewrite Hy, Ey, app_assoc; reflexivity|].
    split; [rewrite Hn, En, app_assoc; reflexivity|].
    unfold half_read in *. cbn [filter].
    destruct (half_read_line py_float l); [discriminate|].
    intros H0. rewrite (Hx H0), (Ex eq_refl), app_assoc. reflexivity.
Qed.

(** X2: the names and the second coordinates read from the map are those
    of the lines kept whole, in the order of the file; when no line is read
    by half, so are the first coordinates, and the three lists describe the
    same areas place by place. *)
Theorem load_map_kept (map_data : list line) (m : map_lists) :
  load_map py_float map_data no_map = Read m ->
  y_coord m = map (fun k => snd (fst k)) (kept py_float map_data) /\
  lsoa_name m = map snd (kept py_float map_data) /\
  (half_read py_float map_data = 0 ->
   x_coord m = map (fun k => fst (fst k)) (kept py_float map_data)).
Proof.
  intros H. apply load_map_kept_from in H. exact H.
Qed.

(** X3: the pass over the map stops on an [IndexError] exactly when a line
    of the file has fewer than four columns; no other line stops it. *)
Theorem load_map_column_missing (map_data : list line) (m : map_lists) :
  load_map py_float map_data m = ColumnMissing <->
  exists l, In l map_data /\ length l < 4.
Proof.
  revert m. induction map_data as [|l rest IH]; intros m; cbn [load_map].
  - split; [discriminate | intros (l & [] & _)].
  - destruct (load_line py_float l m) as [m1|] eqn:E.
    + rewrite IH. 
      assert (Hl : 4 <= length l).
      { unfold load_line in E.
        destruct (nth_error l 3) eqn:E3; [|discriminate].
        assert (3 < length l) by (apply nth_error_Some; rewrite E3; discriminate).
        lia. }
      split.
      * intros (l' & Hin & Hlen). exists l'. split; [now right | exact Hlen].
      * intros (l' & [<- | Hin] & Hlen); [lia | eauto].
    + split; [|reflexivity]. intros _. exists l. split; [now left|].
      unfold load_line in E.
      destruct (nth_error l 3) eqn:E3.
      * destruct (Text.starts_with_E s); [|discriminate].
        destruct (float_column py_float l 0); [|discriminate].
        destruct (float_column py_float l 1); discriminate.
      * apply nth_error_None in E3. lia.
Qed.

End MapFile.

Lemma load_map_lengths_witness :
  exists m,
    load_map Sample.to_float Sample.map_file no_map = Read m /\
    length (y_coord m) = length (lsoa_name m) /\
    length (x_coord m)
    = (length (lsoa_name m) + half_read Sample.to_float Sample.map_file)%nat.
Proof.
  eexists. split; [vm_compute; reflexivity|].
  apply (load_map_lengths Sample.to_float Sample.map_file).
  vm_compute. reflexivity.
Defined.

Lemma load_map_kept_witness :
  exists m,
    load_map Sample.to_float Sample.sound_map_file no_map = Read m /\
    y_coord m
    = map (fun k => snd (fst k)) (kept Sample.to_float Sample.sound_map_file) /\
    lsoa_name m = map snd (kept Sample.to_float Sample.sound_map_file) /\
    (half_read Sample.to_float Sample.sound_map_file = 0%nat ->
     x_coord m
     = map (fun k => fst (fst k)) (kept Sample.to_float Sample.sound_map_file)).
Proof.
  eexists. split; [vm_compute; reflexivity|].
  apply (load_map_kept Sample.to_float Sample.sound_map_file).
  vm_compute. reflexivity.
Defined.

(** ** The data of a week *)

Lemma locate_inv (m : map_lists) (code : String.string) (n : Z) (o : outbreak) :
  locate m code n = Some o ->
  cases o = n /\
  exists xref,
    list_index code (lsoa_name m) = Some xref /\
    nth_error (x_coord m) xref = Some (easting o) /\
    nth_error (y_coord m) xref = Some (northing o).
Proof.
  unfold locate.
  destruct (list_index code (lsoa_name m)) as [xref|]; [|discriminate].
  destruct (nth_error (x_coord m) xref) as [x|] eqn:Ex; [|discriminate].
  destruct (nth_error (y_coord m) xref) as [y|] eqn:Ey; [|discriminate].
  intros H. injection H as <-. cbn. split; [reflexivity|].
  exists xref. auto.
Qed.

Lemma locate_any (m : map_lists) (code : String.string) (n n' : Z) :
  locate m code n = None <-> locate m code n' = None.
Proof.
  unfold locate.
  destruct (list_index code (lsoa_name m)) as [xref|]; [|split; intros _; reflexivity].
  destruct (nth_error (x_coord m) xref), (nth_error (y_coord m) xref);
    split; intros H; try discriminate; reflexivity.
Qed.

Section DataFile.

Variable py_int : String.string -> option Z.
Variable m : map_lists.

Local Open Scope nat_scope.

Lemma collect_line_inv (week : nat) (last_week : bool) (l : line)
    (acc acc' : list outbreak * nat) :
  collect_line py_int m week last_week l acc = Read acc' ->
  (fst acc' = fst acc \/
   exists o, fst acc' = fst acc ++ [o] /\ reports py_int m week l o) /\
  (snd acc' = snd acc \/ (snd acc' = S (snd acc) /\ last_week = false)).
Proof.
  unfold collect_line, reports, area_line.
  destruct (nth_error l 0) as [code|] eqn:E0; [|discriminate].
  destruct (String.eqb code Text.header || String.eqb code Text.unidentified)
    eqn:Ef.
  { intros H; injection H as <-. auto. }
  destruct (int_column py_int l (week + 2)) as [n|] eqn:En.
  2: { intros H; injection H as <-. auto. }
  destruct (2 <? n)%Z eqn:E2.
  - destruct (locate m code n) as [o|] eqn:Eo; cbn [option_map].
    2: { intros H; injection H as <-. auto. }
    apply locate_inv in Eo as (Ec & xref & Hi & Hx & Hy).
    assert (Hrep : exists o0, fst acc ++ [o] = fst acc ++ [o0] /\
              exists code0 xref0,
                Some code = Some code0 /\ negb false = true /\
                Some n = Some (cases o0) /\ (3 <= cases o0)%Z /\
                list_index code0 (lsoa_name m) = Some xref0 /\
                nth_error (x_coord m) xref0 = Some (easting o0) /\
                nth_error (y_coord m) xref0 = Some (northing o0)).
    { exists o. split; [reflexivity|]. exists code, xref.
      apply Z.ltb_lt in E2. rewrite Ec. repeat split; auto. lia. }
    destruct last_week.
    + intros H; injection H as <-. cbn. auto.
    + destruct (int_column py_int l (week + 3)) as [f|].
      * destruct (2 <? f)%Z; intros H; injection H as <-; cbn; auto.
      * intros H; injection H as <-. cbn. auto.
  - destruct last_week.
    + intros H; injection H as <-. cbn. auto.
    + destruct (int_column py_int l (week + 3)) as [f|].
      * destruct (2 <? f)%Z; intros H; injection H as <-; cbn; auto.
      * intros H; injection H as <-. cbn. auto.
Qed.

Lemma collect_from_inv (week : nat) (last_week : bool) (data : list line)
    (Q : outbreak -> Prop) :
  (forall l o, In l data -> reports py_int m week l o -> Q o) ->
  forall acc acc',
    collect_from py_int m week last_week data acc = Read acc' ->
    Forall Q (fst acc) ->
    Forall Q (fst acc') /\
    length (fst acc') <= length (fst acc) + length data /\
    snd acc <= snd acc' <= snd acc + length data /\
    (last_week = true -> snd acc' = snd acc).
Proof.
  induction data as [|l rest IH]; intros HQ acc acc' H Hacc;
    cbn [collect_from] in H.
  - injection H as <-. repeat split; auto; lia.
  - destruct (collect_line py_int m week last_week l acc) as [acc1|] eqn:E;
      [|discriminate].
    apply collect_line_inv in E as (Hw & Hf).
    assert (Hacc1 : Forall Q (fst acc1)).
    { destruct Hw as [-> | (o & -> & Hrep)]; [exact Hacc|].
      apply Forall_app. split; [exact Hacc|].
      constructor; [|constructor]. apply (HQ l o); [now left | exact Hrep]. }
    destruct (IH (fun l' o Hin => HQ l' o (or_intror Hin)) acc1 acc' H Hacc1)
      as (HF & Hlen & Hsnd & Hlast).
    assert (length (fst acc1) <= S (length (fst acc))).
    { destruct Hw as [-> | (o & -> & _)]; [lia|].
      rewrite length_app. cbn. lia. }
    cbn [length]. split; [exact HF|]. split; [lia|]. split.
    + destruct Hf as [Hf | [Hf _]]; lia.
    + intros Hl. rewrite (Hlast Hl).
      destruct Hf as [Hf | [_ Hc]]; [exact Hf | congruence].
Qed.

(** X4: every outbreak the pass collects for a week is reported by a line
    of the data: an area line whose column of the week holds 3 cases or
    more, placed at the coordinates the map lists give for the first place
    of its code.  There are at most as many outbreaks, and at most as many
    areas counted for the next week, as the data has lines; in the last
    week no area is counted for the next. *)
Theorem collect_week_reports (week : nat) (last_week : bool)
    (data : list line) (wd : week_data) :
  collect_week py_int m week last_week data = Read wd ->
  Forall (fun o => exists l, In l data /\ reports py_int m week l o)
         (outbreaks wd) /\
  length (outbreaks wd) <= length data /\
  next_week_rows wd <= length data /\
  (last_week = true -> next_week_rows wd = 0).
Proof.
  unfold collect_week.
  destruct (collect_from py_int m week last_week data ([], 0))
    as [[weekly future]|] eqn:E; [|discriminate].
  intros H. injection H as <-. cbn [outbreaks next_week_rows].
  apply (collect_from_inv week last_week data
           (fun o => exists l, In l data /\ reports py_int m week l o)) in E.
  - cbn in E. destruct E as (HF & Hlen & Hsnd & Hlast).
    repeat split; auto; lia.
  - intros l o Hin Hrep. exists l. auto.
  - constructor.
Qed.

Lemma collect_line_missing (week : nat) (last_week : bool) (l : line)
    (acc : list outbreak * nat) :
  collect_line py_int m week last_week l acc = ColumnMissing <-> l = [].
Proof.
  unfold collect_line. destruct l as [|code rest]; cbn [nth_error].
  - tauto.
  - split; [|discriminate].
    destruct (String.eqb code Text.header || String.eqb code Text.unidentified);
      [discriminate|].
    destruct (int_column py_int (code :: rest) (week + 2)) as [n|];
      [|discriminate].
    destruct (if (2 <? n)%Z
              then option_map (fun o => fst acc ++ [o]) (locate m code n)
              else Some (fst acc)); [|discriminate].
    destruct last_week; [discriminate|].
    destruct (int_column py_int (code :: rest) (week + 3)); discriminate.
Qed.

Lemma collect_from_missing (week : nat) (last_week : bool) (data : list line) :
  forall acc,
    collect_from py_int m week last_week data acc = ColumnMissing
    <-> In [] data.
Proof.
  induction data as [|l rest IH]; intros acc; cbn [collect_from In].
  - split; [discriminate | tauto].
  - destruct (collect_line py_int m week last_week l acc) as [acc1|] eqn:E.
    + rewrite IH. split; [tauto|]. intros [-> | Hin]; [|exact Hin].
      assert (Hm : collect_line py_int m week last_week [] acc = ColumnMissing)
        by (apply collect_line_missing; reflexivity).
      congruence.
    + apply collect_line_missing in E. subst l. tauto.
Qed.

Lemma collect_week_read (week : nat) (last_week : bool) (data : list line) :
  ~ In [] data ->
  collect_week py_int m week last_week data <> ColumnMissing.
Proof.
  intros Hdata. unfold collect_week.
  destruct (collect_from py_int m week last_week data ([], 0))
    as [[w f]|] eqn:E; [discriminate|].
  apply collect_from_missing in E. contradiction.
Qed.

(** X5: the pass over the data of a week stops on an [IndexError] exactly
    when the data has an empty line; unreadable columns and areas that are
    not on the map never stop it. *)
Theorem collect_week_column_missing (week : nat) (last_week : bool)
    (data : list line) :
  collect_week py_int m week last_week data = ColumnMissing <-> In [] data.
Proof.
  unfold collect_week.
  pose proof (collect_from_missing week last_week data ([], 0)) as H.
  destruct (collect_from py_int m week last_week data ([], 0)) as [[w f]|].
  - split; [discriminate|]. intros Hin. apply H in Hin. discriminate.
  - split; [intros _; apply H; reflexivity | reflexivity].
Qed.

End DataFile.

Lemma collect_week_reports_witness :
  exists wd,
    collect_week Sample.to_int Sample.lists 0 false Sample.data_file = Read wd /\
    Forall (fun o => exists l, In l Sample.data_file /\
                               reports Sample.to_int Sample.lists 0 l o)
           (outbreaks wd) /\
    (length (outbreaks wd) <= length Sample.data_file)%nat /\
    (next_week_rows wd <= length Sample.data_file)%nat /\
    (false = true -> next_week_rows wd = 0%nat).
Proof.
  eexists. split; [vm_compute; reflexivity|].
  eapply collect_week_reports. vm_compute. reflexivity.
Defined.

(** ** The count of the next week *)

Section LookAhead.

Variable py_int : String.string -> option Z.
Variable m : map_lists.

Local Open Scope nat_scope.

Lemma collect_line_ahead (week : nat) (last_week : bool) (l : line)
    (acc acc1 acc' acc1' : list outbreak * nat) :
  week_readable py_int week l = true ->
  collect_line py_int m week false l acc = Read acc1 ->
  collect_line py_int m (week + 1) last_week l acc' = Read acc1' ->
  length (fst acc1') + snd acc <= length (fst acc') + snd acc1 /\
  (week_readable py_int (week + 1) l = true -> on_map m l = true ->
   length (fst acc1') + snd acc = length (fst acc') + snd acc1).
Proof.
  unfold week_readable, on_map, area_line, collect_line.
  replace (week + 1 + 2) with (week + 3) by lia.
  destruct (nth_error l 0) as [code|]; [|discriminate].
  destruct (String.eqb code Text.header || String.eqb code Text.unidentified).
  { intros _ H1 H2. injection H1 as <-. injection H2 as <-. split; [lia|].
    intros _ _. lia. }
  cbn [negb orb].
  destruct (int_column py_int l (week + 2)) as [n|]; [|discriminate].
  intros _.
  destruct (int_column py_int l (week + 3)) as [n'|].
  - pose proof (locate_any m code n n') as Hnn'.
    pose proof (locate_any m code n 0) as Hn0.
    destruct (2 <? n)%Z, (2 <? n')%Z;
      destruct (locate m code n) as [o|], (locate m code n') as [o'|],
               (locate m code 0) as [o0|];
      cbn [option_map];
      try (exfalso; destruct Hnn' as [A B]; (discriminate (A eq_refl) ||
                                            discriminate (B eq_refl)));
      try (exfalso; destruct Hn0 as [A B]; (discriminate (A eq_refl) ||
                                           discriminate (B eq_refl)));
      intros H1 H2; injection H1 as <-;
      destruct last_week;
      try destruct (int_column py_int l (week + 1 + 3)) as [f|];
      try destruct (2 <? f)%Z;
      injection H2 as <-; cbn [fst snd];
      rewrite ?length_app; cbn [length];
      (split; [lia | intros; try discriminate; lia]).
  - intros H1 H2.
    assert (Hacc' : acc1' = acc').
    { destruct (2 <? n)%Z in H1; injection H2 as <-; reflexivity. }
    subst acc1'. split.
    + destruct (2 <? n)%Z; [destruct (locate m code n)|]; cbn [option_map] in H1;
        injection H1 as <-; cbn; lia.
    + discriminate.
Qed.

Lemma collect_from_ahead (week : nat) (last_week : bool) (data : list line) :
  forallb (week_readable py_int week) data = true ->
  forall acc acc1 acc' acc1',
    collect_from py_int m week false data acc = Read acc1 ->
    collect_from py_int m (week + 1) last_week data acc' = Read acc1' ->
    length (fst acc1') + snd acc <= length (fst acc') + snd acc1 /\
    (forallb (week_readable py_int (week + 1)) data = true ->
     forallb (on_map m) data = true ->
     length (fst acc1') + snd acc = length (fst acc') + snd acc1).
Proof.
  induction data as [|l rest IH]; intros Hr acc acc1 acc' acc1' H1 H2;
    cbn [collect_from forallb] in *.
  - injection H1 as <-. injection H2 as <-. split; [lia | intros; lia].
  - apply andb_prop in Hr as [Hl Hrest].
    destruct (collect_line py_int m week false l acc) as [a|] eqn:E1;
      [|discriminate].
    destruct (collect_line py_int m (week + 1) last_week l acc') as [a'|] eqn:E2;
      [|discriminate].
    destruct (collect_line_ahead week last_week l acc a acc' a' Hl E1 E2)
      as [Hle Heq].
    destruct (IH Hrest a acc1 a' acc1' H1 H2) as [Hle' Heq'].
    split; [lia|].
    intros Hr' Hm'. apply andb_prop in Hr' as [Hl' Hrest'].
    apply andb_prop in Hm' as [Hml Hmrest].
    specialize (Heq Hl' Hml). specialize (Heq' Hrest' Hmrest). lia.
Qed.

(** X6: when the column of a week converts on every area line, the count
    the pass makes for the next week is never below the number of
    outbreaks the next pass collects. *)
Theorem next_week_rows_covers (week : nat) (last_week : bool)
    (data : list line) (wd wd' : week_data) :
  forallb (week_readable py_int week) data = true ->
  collect_week py_int m week false data = Read wd ->
  collect_week py_int m (week + 1) last_week data = Read wd' ->
  length (outbreaks wd') <= next_week_rows wd.
Proof.
  unfold collect_week. intros Hr H1 H2.
  destruct (collect_from py_int m week false data ([], 0))
    as [[w f]|] eqn:E1; [|discriminate].
  destruct (collect_from py_int m (week + 1) last_week data ([], 0))
    as [[w' f']|] eqn:E2; [|discriminate].
  injection H1 as <-. injection H2 as <-. cbn [outbreaks next_week_rows].
  destruct (collect_from_ahead week last_week data Hr _ _ _ _ E1 E2) as [H _].
  cbn in H. lia.
Qed.

(** X7: when moreover the column of the next week converts on every area
    line and every area is on the map with both coordinates, the count
    made for the next week is the number of outbreaks of the next week. *)
Theorem next_week_rows_exact (week : nat) (last_week : bool)
    (data : list line) (wd wd' : week_data) :
  forallb (week_readable py_int week) data = true ->
  forallb (week_readable py_int (week + 1)) data = true ->
  forallb (on_map m) data = true ->
  collect_week py_int m week false data = Read wd ->
  collect_week py_int m (week + 1) last_week data = Read wd' ->
  next_week_rows wd = length (outbreaks wd').
Proof.
  unfold collect_week. intros Hr Hr' Hm H1 H2.
  destruct (collect_from py_int m week false data ([], 0))
    as [[w f]|] eqn:E1; [|discriminate].
  destruct (collect_from py_int m (week + 1) last_week data ([], 0))
    as [[w' f']|] eqn:E2; [|discriminate].
  injection H1 as <-. injection H2 as <-. cbn [outbreaks next_week_rows].
  destruct (collect_from_ahead week last_week data Hr _ _ _ _ E1 E2) as [_ H].
  specialize (H Hr' Hm). cbn in H. lia.
Qed.

End LookAhead.

Lemma next_week_rows_covers_witness :
  exists wd wd',
    collect_week Sample.to_int Sample.lists 0 false Sample.data_file = Read wd /\
    collect_week Sample.to_int Sample.lists (0 + 1) false Sample.data_file
    = Read wd' /\
    (length (outbreaks wd') <= next_week_rows wd)%nat.
Proof.
  eexists. eexists. split; [vm_compute; reflexivity|].
  split; [vm_compute; reflexivity|].
  eapply (next_week_rows_covers Sample.to_int Sample.lists 0 false
            Sample.data_file);
    vm_compute; reflexivity.
Defined.

Lemma next_week_rows_exact_witness :
  exists wd wd',
    collect_week Sample.to_int Sample.sound_lists 0 false Sample.data_file
    = Read wd /\
    collect_week Sample.to_int Sample.sound_lists (0 + 1) false Sample.data_file
    = Read wd' /\
    next_week_rows wd = length (outbreaks wd').
Proof.
  eexists. eexists. split; [vm_compute; reflexivity|].
  split; [vm_compute; reflexivity|].
  eapply (next_week_rows_exact Sample.to_int Sample.sound_lists 0 false
            Sample.data_file);
    vm_compute; reflexivity.
Defined.

(** ** The script and the run on the collected weeks *)

Section Script.

Variable py_float : String.string -> option Q.
Variable py_int : String.string -> option Z.
Variable math_pow : Q -> Q -> Q.
Variable rng : Type.
Variable shuffle : rng -> list outbreak -> list outbreak * rng.

Lemma script_loop_week_loop (m : map_lists) (data : list line)
    (frames_per_day : Z) (d : Q) (n : nat) :
  ~ In [] data ->
  forall count k st g,
    script_loop py_int rng shuffle m data frames_per_day d n (seq k count) st g
    = Read (week_loop rng shuffle frames_per_day d n k
              (map (fun week =>
                      match collect_week py_int m week (week + 1 =? n)%nat data
                      with
                      | Read wd => wd
                      | ColumnMissing =>
                          {| outbreaks := []; next_week_rows := O |}
                      end) (seq k count)) st g).
Proof.
  intros Hdata. induction count as [|count IH]; intros k st g;
    cbn [seq map script_loop week_loop]; [reflexivity|].
  destruct (collect_week py_int m k (k + 1 =? n)%nat data) as [wd|] eqn:E.
  - destruct (process_week rng shuffle frames_per_day d (k + 1 =? n)%nat wd st g)
      as [[st' g']|e]; cbn [bind]; [apply IH | reflexivity].
  - exfalso. revert E. apply collect_week_read. exact Hdata.
Qed.

(** X8: when no line of the map is too short and the data file has a
    first line and no empty line, the script is the run [main] on the weeks
    that the passes over the data collect: it renders the same frames or
    stops on the same exception. *)
Theorem script_is_main (map_data data : list line) (frames_per_day : Z)
    (seed : rng) (m : map_lists) (n : Z) :
  load_map py_float map_data no_map = Read m ->
  number_of_weeks data = Read n ->
  ~ In [] data ->
  script py_float py_int math_pow rng shuffle map_data data frames_per_day seed
  = Read (main math_pow rng shuffle frames_per_day
            (collected py_int m data (Z.to_nat n)) seed).
Proof.
  intros Hm Hn Hdata. unfold script, main. rewrite Hm, Hn.
  destruct (decay_rate math_pow frames_per_day) as [d|e]; cbn [bind];
    [|reflexivity].
  unfold Py.range, collected.
  rewrite (script_loop_week_loop m data frames_per_day d (Z.to_nat n) Hdata).
  rewrite length_map, length_seq.
  destruct (week_loop rng shuffle frames_per_day d (Z.to_nat n) 0 _ initial_state seed)
    as [[st g]|e]; reflexivity.
Qed.

End Script.

Lemma script_is_main_witness :
  script Sample.to_float Sample.to_int sample_pow Z sample_shuffle
    Sample.map_file Sample.data_file 1 0
  = Read (main sample_pow Z sample_shuffle 1
            (collected Sample.to_int Sample.lists Sample.data_file (Z.to_nat 3))
            0).
Proof.
  apply (script_is_main Sample.to_float Sample.to_int sample_pow Z
           sample_shuffle Sample.map_file Sample.data_file 1 0 Sample.lists 3).
  - vm_compute. reflexivity.
  - reflexivity.
  - cbn. intros [H|[H|[H|[H|[H|[]]]]]]; discriminate.
Defined.

(** ** The plot of the historical outbreaks *)

Lemma int_nonneg (x : Q) : (0 <= x)%Q -> 0 <= Py.int x.
Proof.
  intros H. rewrite int_floor by exact H.
  change 0 with (Qfloor 0). apply Qfloor_resp_le. exact H.
Qed.

Lemma age_class_range (frames_per_day : Z) (e : entry) :
  1 <= frames_per_day -> (0 <= age e)%Q ->
  0 <= age_class frames_per_day e < lim frames_per_day.
Proof.
  intros Hf Ha. unfold age_class, lim.
  assert (H : 0 <= Py.int (age e * of_int frames_per_day * 7)).
  { apply int_nonneg.
    pose proof (of_int_pos frames_per_day ltac:(lia)) as Hp.
    apply Qmult_le_0_compat; [|discriminate].
    apply Qmult_le_0_compat; [exact Ha | lra]. }
  destruct (Z.ltb_spec (frames_per_day * 14 - 1)
              (Py.int (age e * of_int frames_per_day * 7))); lia.
Qed.

Lemma place_in_range {A : Type} (l : list A) (i : Z) :
  0 <= i < Z.of_nat (length l) -> place l i = Some (Z.to_nat i).
Proof.
  intros H. unfold place.
  replace (0 <=? i) with true by (symmetry; apply Z.leb_le; lia).
  replace (i <? Z.of_nat (length l)) with true by (symmetry; apply Z.ltb_lt; lia).
  reflexivity.
Qed.

Lemma append_at_length {A : Type} (x : A) (l : list (list A)) :
  forall k, length (append_at k x l) = length l.
Proof.
  induction l as [|b l IH]; intros [|k]; cbn; auto.
Qed.

Lemma append_at_concat {A : Type} (x : A) (l : list (list A)) :
  forall k, (k < length l)%nat ->
            Permutation (concat (append_at k x l)) (x :: concat l).
Proof.
  induction l as [|b l IH]; intros [|k] Hk; cbn in *; try lia.
  - rewrite <- app_assoc. cbn.
    apply Permutation_sym, Permutation_middle.
  - rewrite (IH k) by lia. apply Permutation_sym, Permutation_middle.
Qed.

Lemma classify_all (frames_per_day : Z) (h : list entry) :
  1 <= frames_per_day ->
  Forall (fun e => (0 <= age e)%Q) h ->
  forall classes,
    length classes = Z.to_nat (lim frames_per_day) ->
    exists classes',
      classify frames_per_day h classes = Some classes' /\
      length classes' = Z.to_nat (lim frames_per_day) /\
      Permutation (concat classes') (concat classes ++ map dot_of h).
Proof.
  intros Hf. induction 1 as [|e h He _ IH]; intros classes Hlen;
    cbn [classify map].
  - exists classes. rewrite app_nil_r. auto.
  - pose proof (age_class_range frames_per_day e Hf He) as Hr.
    rewrite place_in_range by (rewrite Hlen; lia).
    destruct (IH (append_at (Z.to_nat (age_class frames_per_day e)) (dot_of e)
                    classes))
      as (classes' & Hc & Hl & Hp); [rewrite append_at_length; exact Hlen|].
    exists classes'. split; [exact Hc|]. split; [exact Hl|].
    rewrite Hp, append_at_concat by (rewrite Hlen; lia).
    cbn. apply Permutation_middle.
Qed.

Lemma concat_rev_perm {A : Type} (l : list (list A)) :
  Permutation (concat (rev l)) (concat l).
Proof.
  induction l as [|a l IH]; cbn; [constructor|].
  rewrite concat_app. cbn. rewrite app_nil_r, IH. apply Permutation_app_comm.
Qed.

Lemma flat_map_backwards {A : Type} (l : list (list A)) :
  flat_map (fun j => nth (length l - 1 - j) l []) (seq 0 (length l))
  = concat (rev l).
Proof.
  induction l as [|a l IH]; [reflexivity|].
  cbn [length rev]. rewrite seq_S, flat_map_app, concat_app. cbn [flat_map Nat.add].
  f_equal.
  - rewrite <- IH, !flat_map_concat_map. f_equal. apply map_ext_in.
    intros j Hj. apply in_seq in Hj.
    replace (S (length l) - 1 - j)%nat with (S (length l - 1 - j)) by lia.
    reflexivity.
  - replace (S (length l) - 1 - length l)%nat with O by lia. cbn.
    now rewrite !app_nil_r.
Qed.

Lemma concat_repeat_nil {A : Type} (n : nat) : concat (repeat (@nil A) n) = [].
Proof. induction n as [|n IH]; cbn; auto. Qed.

Lemma flat_map_twice {A B C : Type} (f : B -> list C) (g : A -> list B)
    (l : list A) :
  flat_map f (flat_map g l) = flat_map (fun x => flat_map f (g x)) l.
Proof.
  induction l as [|a l IH]; cbn; [reflexivity|].
  now rewrite flat_map_app, IH.
Qed.

Lemma scatter_calls_dots (frames_per_day : Z) (classes : list (list dot)) :
  length classes = Z.to_nat (lim frames_per_day) ->
  flat_map dots (scatter_calls frames_per_day classes) = concat (rev classes).
Proof.
  intros Hlen. unfold scatter_calls, Py.range.
  rewrite flat_map_twice, <- Hlen, <- flat_map_backwards.
  rewrite !flat_map_concat_map. f_equal. apply map_ext_in.
  intros j Hj. apply in_seq in Hj.
  replace (Z.to_nat (lim frames_per_day - (Z.of_nat j + 1)))
    with (length classes - 1 - j)%nat by lia.
  destruct (nth_error classes (length classes - 1 - j)) as [c|] eqn:E.
  - rewrite (nth_error_nth _ _ _ E). destruct c; cbn; [reflexivity|].
    now rewrite app_nil_r.
  - apply nth_error_None in E. lia.
Qed.

Lemma scatter_calls_sorted (frames_per_day : Z) (classes : list (list dot)) :
  forall a count,
    StronglySorted (fun c c' => class_no c' < class_no c)
      (flat_map
         (fun j =>
            let i := lim frames_per_day - (Z.of_nat j + 1) in
            match nth_error classes (Z.to_nat i) with
            | Some (d :: ds) =>
                [{| class_no := i; dots := d :: ds;
                    alpha := opacity frames_per_day i |}]
            | _ => []
            end) (seq a count)) /\
    Forall (fun c => lim frames_per_day - Z.of_nat (a + count) <= class_no c
                     < lim frames_per_day - Z.of_nat a /\
                     dots c <> [] /\
                     alpha c = opacity frames_per_day (class_no c))
      (flat_map
         (fun j =>
            let i := lim frames_per_day - (Z.of_nat j + 1) in
            match nth_error classes (Z.to_nat i) with
            | Some (d :: ds) =>
                [{| class_no := i; dots := d :: ds;
                    alpha := opacity frames_per_day i |}]
            | _ => []
            end) (seq a count)).
Proof.
  intros a count. revert a.
  induction count as [|count IH]; intros a; cbn [seq flat_map].
  - split; constructor.
  - destruct (IH (S a)) as [Hs Hf].
    set (rest := flat_map _ (seq (S a) count)) in *.
    assert (Hf' : Forall
                    (fun c => lim frames_per_day - Z.of_nat (a + S count)
                              <= class_no c < lim frames_per_day - Z.of_nat a /\
                              dots c <> [] /\
                              alpha c = opacity frames_per_day (class_no c))
                    rest).
    { eapply Forall_impl; [|exact Hf]. cbn. intros c (Hc & Hd & Ha).
      repeat split; auto; lia. }
    cbv zeta.
    destruct (nth_error classes
                (Z.to_nat (lim frames_per_day - (Z.of_nat a + 1))))
      as [[|d ds]|]; cbn [app]; try (split; assumption).
    split.
    + constructor; [exact Hs|].
      eapply Forall_impl; [|exact Hf]. cbn. intros c (Hc & _). lia.
    + constructor; [|exact Hf'].
      cbn. repeat split; try lia. discriminate.
Qed.

(** X9: with at least one frame per day and no negative age, the sorting
    of the historical outbreaks into age classes never indexes out of
    range, and the calls of [plt.scatter] that follow draw every
    historical outbreak exactly once; the calls go from the oldest class
    to the youngest, none is empty, and each uses the opacity of its
    class. *)
Theorem plot_history_draws_all (frames_per_day : Z) (h : list entry) :
  1 <= frames_per_day ->
  Forall (fun e => (0 <= age e)%Q) h ->
  exists calls,
    plot_history frames_per_day h = Some calls /\
    Permutation (flat_map dots calls) (map dot_of h) /\
    StronglySorted (fun c c' => class_no c' < class_no c) calls /\
    Forall (fun c => 0 <= class_no c < lim frames_per_day /\
                     dots c <> [] /\
                     alpha c = opacity frames_per_day (class_no c)) calls.
Proof.
  intros Hf Hh. unfold plot_history.
  destruct (classify_all frames_per_day h Hf Hh
              (repeat [] (Z.to_nat (lim frames_per_day))))
    as (classes & -> & Hlen & Hp); [apply repeat_length|].
  eexists. split; [reflexivity|]. split; [|split].
  - rewrite scatter_calls_dots by exact Hlen.
    rewrite concat_rev_perm, Hp.
    rewrite concat_repeat_nil. reflexivity.
  - apply (scatter_calls_sorted frames_per_day classes 0).
  - pose proof (proj2 (scatter_calls_sorted frames_per_day classes 0
                         (Z.to_nat (lim frames_per_day)))) as H.
    eapply Forall_impl; [|exact H]. cbn. intros c (Hc & Hd & Ha).
    unfold lim in *. repeat split; auto; lia.
Qed.

Lemma plot_history_draws_all_witness :
  exists calls,
    plot_history 1 [entry_of 2; entry_of 3] = Some calls /\
    Permutation (flat_map dots calls) (map dot_of [entry_of 2; entry_of 3]) /\
    StronglySorted (fun c c' => class_no c' < class_no c) calls /\
    Forall (fun c => 0 <= class_no c < lim 1 /\
                     dots c <> [] /\
                     alpha c = opacity 1 (class_no c)) calls.
Proof.
  apply (plot_history_draws_all 1 [entry_of 2; entry_of 3]).
  - lia.
  - repeat constructor; discriminate.
Defined.

(** X10: with at least one frame per day, the opacity of every age class
    lies strictly between 0 and 1, and an older class is strictly fainter
    than a younger one. *)
Theorem opacity_fades (frames_per_day : Z) (i j : Z) :
  1 <= frames_per_day ->
  0 <= i -> i < j -> j < lim frames_per_day ->
  (0 < opacity frames_per_day j)%Q /\
  (opacity frames_per_day j < opacity frames_per_day i)%Q /\
  (opacity frames_per_day i < 1)%Q.
Proof.
  intros Hf Hi Hij Hj. unfold opacity.
  set (L := of_int (lim frames_per_day + 1)).
  assert (HL : (0 < L)%Q) by (apply of_int_pos; unfold lim; lia).
  assert (Hval : forall k, 0 <= k < lim frames_per_day ->
            (1 - of_int (k + 1) / L == (L - of_int (k + 1)) / L)%Q)
    by (intros k _; field; lra).
  assert (Hpos : forall k, 0 <= k < lim frames_per_day ->
            (0 < of_int (k + 1) /\ of_int (k + 1) < L)%Q).
  { intros k Hk. split; [apply of_int_pos; lia|].
    unfold L, of_int. rewrite <- Zlt_Qlt. lia. }
  set (a := (1 - of_int (i + 1) / L)%Q).
  set (b := (1 - of_int (j + 1) / L)%Q).
  assert (Ha : (0 < a /\ a < 1)%Q).
  { destruct (Hpos i ltac:(lia)) as [H1 H2]. unfold a. split.
    - rewrite Hval by lia. apply Qlt_shift_div_l; lra.
    - assert (0 < of_int (i + 1) / L)%Q by (apply Qlt_shift_div_l; lra). lra. }
  assert (Hb : (0 < b /\ b < a)%Q).
  { destruct (Hpos j ltac:(lia)) as [H1 H2]. unfold a, b. split.
    - rewrite Hval by lia. apply Qlt_shift_div_l; lra.
    - assert (of_int (i + 1) / L < of_int (j + 1) / L)%Q.
      { apply Qmult_lt_compat_r; [apply Qinv_lt_0_compat; exact HL|].
        unfold of_int. rewrite <- Zlt_Qlt. lia. }
      lra. }
  destruct Ha as [Ha0 Ha1], Hb as [Hb0 Hba].
  split; [apply Qmult_lt_0_compat; assumption|]. split.
  - apply Qlt_trans with (a * b)%Q.
    + apply Qmult_lt_compat_r; assumption.
    + rewrite (Qmult_comm a b). apply Qmult_lt_compat_r; assumption.
  - apply Qlt_trans with (1 * a)%Q; [apply Qmult_lt_compat_r; assumption | lra].
Qed.

Lemma opacity_fades_witness :
  (0 < opacity 6 83)%Q /\ (opacity 6 83 < opacity 6 0)%Q /\ (opacity 6 0 < 1)%Q.
Proof. apply (opacity_fades 6 0 83); unfold lim; lia. Defined.

(** ** The names of the files *)

Lemma int_quotient (frame : nat) (frames_per_day : Z) :
  1 <= frames_per_day ->
  Py.int (of_nat frame / of_int frames_per_day)%Q
  = Z.of_nat frame / frames_per_day.
Proof.
  intros Hf. rewrite int_floor.
  - unfold of_nat, of_int. symmetry. apply Zdiv_Qdiv.
  - pose proof (of_int_pos frames_per_day ltac:(lia)).
    pose proof (of_nat_nonneg frame).
    apply Qle_shift_div_l; lra.
Qed.

(** X11: with at least one frame per day, two frames of a run (whatever
    their weeks) whose files carry the same day and the same number after
    it are the same frame of the same week: no file of a run is written
    twice. *)
Theorem file_names_differ (frames_per_day : Z) (week1 frame1 week2 frame2 : nat) :
  1 <= frames_per_day ->
  Z.of_nat frame1 < frames_per_day * 7 ->
  Z.of_nat frame2 < frames_per_day * 7 ->
  file_day frames_per_day week1 frame1 = file_day frames_per_day week2 frame2 ->
  file_number frames_per_day frame1 = file_number frames_per_day frame2 ->
  week1 = week2 /\ frame1 = frame2.
Proof.
  intros Hf H1 H2. unfold file_day, file_number.
  rewrite !int_quotient by exact Hf.
  pose proof (Z.div_mod (Z.of_nat frame1) frames_per_day ltac:(lia)) as E1.
  pose proof (Z.div_mod (Z.of_nat frame2) frames_per_day ltac:(lia)) as E2.
  pose proof (Z.mod_pos_bound (Z.of_nat frame1) frames_per_day ltac:(lia)) as B1.
  pose proof (Z.mod_pos_bound (Z.of_nat frame2) frames_per_day ltac:(lia)) as B2.
  assert (Q1 : 0 <= Z.of_nat frame1 / frames_per_day < 7).
  { split; [apply Z.div_pos; lia | apply Z.div_lt_upper_bound; lia]. }
  assert (Q2 : 0 <= Z.of_nat frame2 / frames_per_day < 7).
  { split; [apply Z.div_pos; lia | apply Z.div_lt_upper_bound; lia]. }
  intros Hd Hn.
  assert (Hq : Z.of_nat frame1 / frames_per_day = Z.of_nat frame2 / frames_per_day)
    by lia.
  split; [lia|]. rewrite Hq, Hn in E1. lia.
Qed.

Lemma file_names_differ_witness : 3%nat = 3%nat /\ 17%nat = 17%nat.
Proof.
  apply (file_names_differ 6 3 17 3 17); try lia; reflexivity.
Defined.

(** ** Weeks before the first outbreak *)

Section QuietStart.

Variable math_pow : Q -> Q -> Q.
Variable rng : Type.
Variable shuffle : rng -> list outbreak -> list outbreak * rng.

Lemma process_week_quiet_start (frames_per_day : Z) (d : Q) (last_week : bool)
    (wd : week_data) (g : rng) :
  outbreaks wd = [] ->
  process_week rng shuffle frames_per_day d last_week wd initial_state g
  = Ok (initial_state, g).
Proof.
  intros H. unfold process_week, week_count. rewrite H. reflexivity.
Qed.

Lemma week_loop_shift (frames_per_day : Z) (d : Q) (k : nat)
    (data : list week_data) :
  forall n week st g,
    week_loop rng shuffle frames_per_day d (k + n) (k + week) data st g
    = week_loop rng shuffle frames_per_day d n week data st g.
Proof.
  induction data as [|wd data IH]; intros n week st g; cbn [week_loop];
    [reflexivity|].
  replace (k + week + 1 =? k + n)%nat with (week + 1 =? n)%nat.
  - destruct (process_week rng shuffle frames_per_day d (week + 1 =? n)%nat wd st g)
      as [[st' g']|e]; cbn [bind]; [|reflexivity].
    replace (S (k + week)) with (k + S week)%nat by lia. apply IH.
  - destruct (Nat.eqb_spec (week + 1) n), (Nat.eqb_spec (k + week + 1) (k + n));
      try reflexivity; lia.
Qed.

Lemma week_loop_quiet_start (frames_per_day : Z) (d : Q)
    (quiet data : list week_data) :
  Forall (fun wd => outbreaks wd = []) quiet ->
  forall n week g,
    week_loop rng shuffle frames_per_day d n week (quiet ++ data)
      initial_state g
    = week_loop rng shuffle frames_per_day d n (length quiet + week) data
        initial_state g.
Proof.
  induction 1 as [|wd quiet Hwd _ IH]; intros n week g; [reflexivity|].
  cbn [app week_loop length].
  rewrite process_week_quiet_start by exact Hwd. cbn [bind].
  rewrite IH. f_equal. lia.
Qed.

(** X12: the weeks without outbreaks at the start of the data are skipped
    altogether: the run renders the frames, with the numbers, or stops on
    the exception, of the run on the data without these weeks. *)
Theorem leading_quiet_weeks_skipped (frames_per_day : Z)
    (quiet data : list week_data) (seed : rng) :
  Forall (fun wd => outbreaks wd = []) quiet ->
  main math_pow rng shuffle frames_per_day (quiet ++ data) seed
  = main math_pow rng shuffle frames_per_day data seed.
Proof.
  intros Hq. unfold main.
  destruct (decay_rate math_pow frames_per_day) as [d|e]; cbn [bind];
    [|reflexivity].
  rewrite (week_loop_quiet_start frames_per_day d quiet data Hq).
  rewrite length_app.
  rewrite <- (week_loop_shift frames_per_day d (length quiet) data
                (length data) 0 initial_state seed).
  reflexivity.
Qed.

End QuietStart.

Lemma leading_quiet_weeks_skipped_witness :
  main sample_pow Z sample_shuffle 1
    ([week_of 0 3 0; week_of 0 3 2] ++ [week_of 2 3 1; week_of 1 5 1]) 0
  = main sample_pow Z sample_shuffle 1 [week_of 2 3 1; week_of 1 5 1] 0.
Proof.
  apply (leading_quiet_weeks_skipped sample_pow Z sample_shuffle 1
           [week_of 0 3 0; week_of 0 3 2] [week_of 2 3 1; week_of 1 5 1] 0).
  repeat constructor.
Defined.

(** ** The update of the history, entry by entry *)

Lemma decay_loop_spec (d : Q) (frames_per_day : Z) (h : list entry) :
  frames_per_day <> 0 ->
  forall count,
    decay_loop d frames_per_day count h
    = Ok (small_places count (map (decayed d frames_per_day) h),
          map (decayed d frames_per_day) h).
Proof.
  intros Hf. induction h as [|e h IH]; intros count; cbn [decay_loop map];
    [reflexivity|].
  rewrite div_Ok by (apply of_int_nonzero; lia). cbn [bind].
  rewrite IH. cbn [bind small_places]. reflexivity.
Qed.

Lemma small_places_length (h : list entry) :
  forall count, length (small_places count h) = length (filter too_small h).
Proof.
  induction h as [|e h IH]; intros count; cbn [small_places filter];
    [reflexivity|].
  rewrite length_app, IH. destruct (too_small e); reflexivity.
Qed.

Lemma purge_accounts (del_entry : list nat) :
  forall h h',
    purge del_entry h = Ok h' ->
    (length h' + length del_entry = length h)%nat /\
    (forall e, In e h' -> In e h).
Proof.
  induction del_entry as [|i rest IH]; intros h h' H; cbn [purge] in H.
  - injection H as <-. cbn. split; [lia | auto].
  - unfold Py.del in H. destruct (Nat.ltb_spec i (length h)) as [Hi|Hi];
      [|discriminate].
    cbn [bind] in H. apply IH in H as [Hlen Hin].
    rewrite length_app, length_firstn, length_skipn in Hlen.
    cbn [length]. split; [lia|].
    intros e He. apply Hin in He. apply in_app_or in He as [He|He].
    + apply (in_firstn _ _ _ He).
    + apply (in_skipn _ _ _ He).
Qed.

(** X13: when the update of the history of a frame ends without error,
    it has removed as many entries as fell below the minimum size, and
    every entry it leaves is an entry of the history before, decayed and
    aged by one frame: the purge never alters an entry nor makes one up. *)
Theorem update_history_accounts (d : Q) (frames_per_day : Z)
    (h h' : list entry) :
  frames_per_day <> 0 ->
  update_history d frames_per_day h = Ok h' ->
  (length h' + length (filter too_small (map (decayed d frames_per_day) h))
   = length h)%nat /\
  (forall e', In e' h' -> exists e, In e h /\ e' = decayed d frames_per_day e).
Proof.
  intros Hf H. unfold update_history in H.
  rewrite decay_loop_spec in H by exact Hf. cbn [bind] in H.
  apply purge_accounts in H as [Hlen Hin].
  rewrite small_places_length, length_map in Hlen. split; [exact Hlen|].
  intros e' He'. apply Hin in He'. apply in_map_iff in He' as (e & <- & He).
  eauto.
Qed.

Lemma update_history_accounts_witness :
  exists h',
    update_history pow_half_seventh 1 [entry_of 0.65; entry_of 3; entry_of 5]
    = Ok h' /\
    (length h' + length (filter too_small
                           (map (decayed pow_half_seventh 1)
                                [entry_of 0.65; entry_of 3; entry_of 5]))
     = length [entry_of 0.65; entry_of 3; entry_of 5])%nat /\
    (forall e', In e' h' ->
       exists e, In e [entry_of 0.65; entry_of 3; entry_of 5] /\
                 e' = decayed pow_half_seventh 1 e).
Proof.
  eexists. split; [vm_compute; reflexivity|].
  apply (update_history_accounts pow_half_seventh 1
           [entry_of 0.65; entry_of 3; entry_of 5]).
  - discriminate.
  - vm_compute. reflexivity.
Defined.

Lemma small_places_one (h : list entry) :
  (length (filter too_small h) <= 1)%nat ->
  forall count,
    (small_places count h = [] /\
     filter (fun e => negb (too_small e)) h = h) \/
    (exists i,
       small_places count h = [(count + i)%nat] /\
       (i < length h)%nat /\
       firstn i h ++ skipn (S i) h = filter (fun e => negb (too_small e)) h).
Proof.
  induction h as [|e h IH]; intros Hone count; cbn [small_places filter] in *.
  - left. auto.
  - destruct (too_small e) eqn:E; cbn [negb app length] in *.
    + destruct (IH ltac:(lia) (S count)) as [[Hs Hf] | (i & Hs & _ & _)].
      * right. exists O. rewrite Hs, Nat.add_0_r. cbn. rewrite Hf.
        split; [reflexivity|]. split; [lia | reflexivity].
      * pose proof (small_places_length h (S count)) as Hl.
        rewrite Hs in Hl. cbn in Hl. lia.
    + destruct (IH Hone (S count)) as [[Hs Hf] | (i & Hs & Hi & Hf)].
      * left. rewrite Hs, Hf. auto.
      * right. exists (S i). rewrite Hs.
        change (skipn (S (S i)) (e :: h)) with (skipn (S i) h).
        change (firstn (S i) (e :: h)) with (e :: firstn i h).
        cbn [app length]. rewrite Hf.
        split; [f_equal; lia|]. split; [lia | reflexivity].
Qed.

(** X14: when at most one entry falls below the minimum size in a frame,
    the update of the history does not fail and is right: it leaves the
    decayed entries that are not below the minimum size, in their
    order. *)
Theorem update_history_one_small (d : Q) (frames_per_day : Z) (h : list entry) :
  frames_per_day <> 0 ->
  (length (filter too_small (map (decayed d frames_per_day) h)) <= 1)%nat ->
  update_history d frames_per_day h
  = Ok (filter (fun e => negb (too_small e)) (map (decayed d frames_per_day) h)).
Proof.
  intros Hf Hone. unfold update_history.
  rewrite decay_loop_spec by exact Hf. cbn [bind].
  destruct (small_places_one _ Hone 0%nat) as [[-> ->] | (i & -> & Hi & <-)].
  - reflexivity.
  - cbn [purge Nat.add]. unfold Py.del.
    replace (i <? length (map (decayed d frames_per_day) h))%nat with true
      by (symmetry; apply Nat.ltb_lt; exact Hi).
    reflexivity.
Qed.

Lemma update_history_one_small_witness :
  update_history pow_half_seventh 1 [entry_of 3; entry_of 0.65; entry_of 5]
  = Ok (filter (fun e => negb (too_small e))
               (map (decayed pow_half_seventh 1)
                    [entry_of 3; entry_of 0.65; entry_of 5])).
Proof.
  apply (update_history_one_small pow_half_seventh 1
           [entry_of 3; entry_of 0.65; entry_of 5]).
  - discriminate.
  - vm_compute. lia.
Defined.

(** ** What every frame of a run keeps *)

Section FilmInvariant.

Variable rng : Type.
Variable shuffle : rng -> list outbreak -> list outbreak * rng.
Variable d : Q.
Variable frames_per_day : Z.

(** A property of the film that every pass of the frame loop body keeps. *)
Variable P : film -> Prop.
Hypothesis frame_body_keeps :
  forall nl weekly frame_index c f c' f',
    P f ->
    frame_body d frames_per_day nl weekly frame_index c f = Ok (c', f') ->
    P f'.

Lemma frame_loop_keeps (nl : option (list Z)) (weekly : list outbreak)
    (frames : list nat) :
  forall c f f',
    P f ->
    frame_loop d frames_per_day nl weekly frames c f = Ok f' ->
    P f'.
Proof.
  induction frames as [|frame_index frames IH]; intros c f f' Hf H;
    cbn [frame_loop] in H.
  - injection H as <-. exact Hf.
  - apply bind_Ok_inv in H as ([c1 f1] & Hb & H).
    eapply IH; [|exact H]. eapply frame_body_keeps; eauto.
Qed.

Lemma process_week_keeps (last_week : bool) (wd : week_data)
    (st st' : state) (g g' : rng) :
  P (reel st) ->
  process_week rng shuffle frames_per_day d last_week wd st g = Ok (st', g') ->
  P (reel st').
Proof.
  intros Hst H. unfold process_week in H.
  apply bind_Ok_inv in H as (nl & _ & H).
  destruct (started st || (0 <? length (outbreaks wd))%nat).
  - destruct (shuffle g (outbreaks wd)) as [weekly g1].
    apply bind_Ok_inv in H as (f & Hf & H). injection H as <- _. cbn [reel].
    eapply frame_loop_keeps; eauto.
  - injection H as <- _. exact Hst.
Qed.

Lemma week_loop_keeps (n : nat) (data : list week_data) :
  forall week st g st' g',
    P (reel st) ->
    week_loop rng shuffle frames_per_day d n week data st g = Ok (st', g') ->
    P (reel st').
Proof.
  induction data as [|wd data IH]; intros week st g st' g' Hst H;
    cbn [week_loop] in H.
  - injection H as <- _. exact Hst.
  - apply bind_Ok_inv in H as ([st1 g1] & H1 & H).
    eapply IH; [|exact H]. eapply process_week_keeps; eauto.
Qed.

End FilmInvariant.

Lemma frame_body_numbered (d : Q) (frames_per_day : Z) (nl : option (list Z))
    (weekly : list outbreak) (frame_index : nat) (c c' : cursor) (f f' : film) :
  numbered f ->
  frame_body d frames_per_day nl weekly frame_index c f = Ok (c', f') ->
  numbered f'.
Proof.
  intros [Hc Hn] H. unfold frame_body in H.
  apply bind_Ok_inv in H as ([c1 fo] & _ & H).
  apply bind_Ok_inv in H as (h & _ & H).
  injection H as _ <-. unfold numbered. cbn [frame_count rendered].
  rewrite length_app, map_app, Hn. cbn [length map frame_no].
  rewrite Nat.add_1_r, seq_S, map_app. cbn [map].
  split; [lia|]. do 2 f_equal. lia.
Qed.

Lemma frame_loop_count (d : Q) (frames_per_day : Z) (nl : option (list Z))
    (weekly : list outbreak) (frames : list nat) :
  forall c f f',
    frame_loop d frames_per_day nl weekly frames c f = Ok f' ->
    length (rendered f') = (length (rendered f) + length frames)%nat.
Proof.
  induction frames as [|frame_index frames IH]; intros c f f' H;
    cbn [frame_loop] in H.
  - injection H as <-. cbn. lia.
  - apply bind_Ok_inv in H as ([c1 f1] & Hb & H).
    apply IH in H. rewrite H. unfold frame_body in Hb.
    apply bind_Ok_inv in Hb as ([c2 fo] & _ & Hb).
    apply bind_Ok_inv in Hb as (h & _ & Hb).
    injection Hb as _ <-. cbn [rendered length]. rewrite length_app. cbn. lia.
Qed.

Section Numbering.

Variable math_pow : Q -> Q -> Q.
Variable rng : Type.
Variable shuffle : rng -> list outbreak -> list outbreak * rng.

Lemma week_loop_count (frames_per_day : Z) (d : Q) (n : nat)
    (data : list week_data) :
  forall week st g st' g',
    week_loop rng shuffle frames_per_day d n week data st g = Ok (st', g') ->
    exists weeks,
      (weeks <= length data)%nat /\
      length (rendered (reel st'))
      = (length (rendered (reel st)) + weeks * Z.to_nat (frames_per_day * 7))%nat.
Proof.
  induction data as [|wd data IH]; intros week st g st' g' H;
    cbn [week_loop] in H.
  - injection H as <- _. exists O. cbn. lia.
  - apply bind_Ok_inv in H as ([st1 g1] & H1 & H).
    apply IH in H as (weeks & Hw & Hlen).
    unfold process_week in H1.
    apply bind_Ok_inv in H1 as (nl & _ & H1).
    destruct (started st || (0 <? length (outbreaks wd))%nat).
    + destruct (shuffle g (outbreaks wd)) as [weekly g2].
      apply bind_Ok_inv in H1 as (f & Hf & H1). injection H1 as <- _.
      apply frame_loop_count in Hf. rewrite range_length in Hf.
      cbn [reel] in Hlen. exists (S weeks). cbn [length]. split; [lia|].
      rewrite Hlen, Hf. lia.
    + injection H1 as <- _. cbn [reel] in Hlen.
      exists weeks. cbn [length]. split; [lia | exact Hlen].
Qed.

(** X15: the frames of a run that ends without error are numbered 1, 2,
    3, ... without a gap, and they are whole weeks: their number is a
    multiple of the frames of a week (7 times the frames per day), at most
    one week of frames for each week of the data. *)
Theorem frames_numbered (frames_per_day : Z) (data : list week_data)
    (seed : rng) (frames : list frame) :
  main math_pow rng shuffle frames_per_day data seed = Ok frames ->
  map frame_no frames = map Z.of_nat (seq 1 (length frames)) /\
  exists weeks,
    (weeks <= length data)%nat /\
    length frames = (weeks * Z.to_nat (frames_per_day * 7))%nat.
Proof.
  unfold main. intros H.
  apply bind_Ok_inv in H as (d & _ & H).
  apply bind_Ok_inv in H as ([st g] & Hrun & H).
  injection H as <-. cbn [fst]. split.
  - apply (week_loop_keeps rng shuffle d frames_per_day numbered) in Hrun.
    + exact (proj2 Hrun).
    + intros nl weekly frame_index c f c' f'. apply frame_body_numbered.
    + split; reflexivity.
  - apply week_loop_count in Hrun as (weeks & Hw & Hlen).
    exists weeks. split; [exact Hw|]. rewrite Hlen. reflexivity.
Qed.

End Numbering.

Lemma frames_numbered_witness :
  exists frames,
    main sample_pow Z sample_shuffle 1 [week_of 2 3 1; week_of 1 5 1] 0
    = Ok frames /\
    map frame_no frames = map Z.of_nat (seq 1 (length frames)) /\
    exists weeks,
      (weeks <= length [week_of 2 3 1; week_of 1 5 1])%nat /\
      length frames = (weeks * Z.to_nat (1 * 7))%nat.
Proof.
  eexists. split; [vm_compute; reflexivity|].
  apply (frames_numbered sample_pow Z sample_shuffle 1
           [week_of 2 3 1; week_of 1 5 1] 0).
  vm_compute. reflexivity.
Defined.

(** ** The ages and the plot *)

Lemma frame_body_ages (d : Q) (frames_per_day : Z) (nl : option (list Z))
    (weekly : list outbreak) (frame_index : nat) (c c' : cursor) (f f' : film) :
  1 <= frames_per_day ->
  ages_sound f ->
  frame_body d frames_per_day nl weekly frame_index c f = Ok (c', f') ->
  ages_sound f'.
Proof.
  intros Hf [Hh Hr] H. unfold frame_body, assign_frame in H.
  apply bind_Ok_inv in H as ([c1 fo] & Ha & H).
  apply bind_Ok_inv in H as (h & Hu & H).
  injection H as _ <-. unfold ages_sound. cbn [historical_outbreaks rendered].
  assert (Hh' : Forall (fun e => (0 <= age e)%Q) h).
  { unfold update_history in Hu.
    rewrite decay_loop_spec in Hu by lia. cbn [bind] in Hu.
    apply purge_accounts in Hu as [_ Hin].
    apply Forall_forall. intros e' He'. apply Hin in He'.
    apply in_map_iff in He' as (e & <- & He).
    rewrite Forall_forall in Hh. specialize (Hh e He).
    unfold decayed, aged. cbn [age].
    pose proof (of_int_pos (frames_per_day * 7) ltac:(lia)) as Hp.
    assert (0 < 1 / of_int (frames_per_day * 7))%Q
      by (apply Qlt_shift_div_l; lra).
    lra. }
  split.
  - apply Forall_app. split; [exact Hh'|].
    apply bind_Ok_inv in Ha as (l & _ & Ha).
    apply bind_Ok_inv in Ha as (k & _ & Ha).
    apply bind_Ok_inv in Ha as ([ci out] & Hc & Ha).
    injection Ha as _ <-.
    apply assign_cases_Ok_inv in Hc as (_ & -> & _). cbn [app].
    apply Forall_forall. intros e He.
    apply in_map_iff in He as (af & <- & _). cbn. discriminate.
  - apply Forall_app. split; [exact Hr|]. constructor; [|constructor].
    exact Hh'.
Qed.

(** X16: in a run with at least one frame per day that ends without
    error, no frame shows an entry of negative age, and the plot of the
    historical outbreaks of every frame sorts them into the age classes
    without indexing out of range. *)
Theorem every_frame_plots (math_pow : Q -> Q -> Q) (rng : Type)
    (shuffle : rng -> list outbreak -> list outbreak * rng)
    (frames_per_day : Z) (data : list week_data) (seed : rng)
    (frames : list frame) :
  1 <= frames_per_day ->
  main math_pow rng shuffle frames_per_day data seed = Ok frames ->
  Forall (fun fr =>
            Forall (fun e => (0 <= age e)%Q) (shown_history fr) /\
            exists calls,
              plot_history frames_per_day (shown_history fr) = Some calls)
         frames.
Proof.
  intros Hf H. unfold main in H.
  apply bind_Ok_inv in H as (d & _ & H).
  apply bind_Ok_inv in H as ([st g] & Hrun & H).
  injection H as <-. cbn [fst].
  apply (week_loop_keeps rng shuffle d frames_per_day ages_sound) in Hrun.
  - destruct Hrun as [_ Hr]. eapply Forall_impl; [|exact Hr].
    cbn. intros fr Hfr. split; [exact Hfr|].
    unfold plot_history.
    destruct (classify_all frames_per_day (shown_history fr) Hf Hfr
                (repeat [] (Z.to_nat (lim frames_per_day))))
      as (classes & -> & _ & _); [apply repeat_length|].
    eauto.
  - intros nl weekly frame_index c f c' f'.
    apply frame_body_ages. exact Hf.
  - split; constructor.
Qed.

Lemma every_frame_plots_witness :
  exists frames,
    main sample_pow Z sample_shuffle 1 [week_of 2 3 1; week_of 1 5 1] 0
    = Ok frames /\
    Forall (fun fr =>
              Forall (fun e => (0 <= age e)%Q) (shown_history fr) /\
              exists calls,
                plot_history 1 (shown_history fr) = Some calls)
           frames.
Proof.
  eexists. split; [vm_compute; reflexivity|].
  apply (every_frame_plots sample_pow Z sample_shuffle 1
           [week_of 2 3 1; week_of 1 5 1] 0).
  - lia.
  - vm_compute. reflexivity.
Defined.

(** ** Where an outbreak is drawn *)

Lemma list_index_split {A : Type} (name_of : A -> String.string)
    (s : String.string) (K : list A) :
  forall i,
    list_index s (map name_of K) = Some i ->
    exists before k after,
      K = before ++ k :: after /\
      length before = i /\
      name_of k = s /\
      (forall b, In b before -> name_of b <> s).
Proof.
  induction K as [|a K IH]; intros i H; cbn [map list_index] in H;
    [discriminate|].
  destruct (String.eqb_spec (name_of a) s) as [E|E].
  - injection H as <-. exists [], a, K. repeat split; auto.
  - destruct (list_index s (map name_of K)) as [j|] eqn:Ej; [|discriminate].
    injection H as <-.
    destruct (IH j eq_refl) as (before & k & after & -> & Hlen & Hk & Hb).
    exists (a :: before), k, after. cbn [app length].
    repeat split; auto.
    intros b [<- | Hin]; [exact E | apply Hb; exact Hin].
Qed.

Lemma nth_error_middle {A B : Type} (f : A -> B) (before after : list A) (k : A) :
  nth_error (map f (before ++ k :: after)) (length before) = Some (f k).
Proof.
  rewrite map_app, nth_error_app2 by (rewrite length_map; lia).
  rewrite length_map, Nat.sub_diag. reflexivity.
Qed.

(** X17: when the map is read without a line read by half, the outbreak
    of an area carries the coordinates of the first line of the map file,
    among the lines kept whole, that names the area (a later line of the
    same area is never used), and the cases given. *)
Theorem locate_first_line (py_float : String.string -> option Q)
    (map_data : list line) (m : map_lists) (code : String.string) (n : Z)
    (o : outbreak) :
  load_map py_float map_data no_map = Read m ->
  half_read py_float map_data = 0%nat ->
  locate m code n = Some o ->
  exists before x y after,
    kept py_float map_data = before ++ (x, y, code) :: after /\
    (forall b, In b before -> snd b <> code) /\
    o = {| cases := n; easting := x; northing := y |}.
Proof.
  intros Hm Hhalf Ho.
  apply load_map_kept_from in Hm as (Hy & Hn & Hx).
  specialize (Hx Hhalf). cbn [no_map x_coord y_coord lsoa_name app] in *.
  unfold locate in Ho. rewrite Hn in Ho.
  destruct (list_index code (map snd (kept py_float map_data))) as [xref|] eqn:Ei;
    [|discriminate].
  apply list_index_split in Ei
    as (before & [[x y] name] & after & Ek & Hlen & Hname & Hb).
  cbn [snd] in Hname. subst name xref.
  rewrite Hx, Hy, Ek in Ho.
  rewrite (nth_error_middle (fun k => fst (fst k))),
          (nth_error_middle (fun k => snd (fst k))) in Ho.
  cbn [fst snd] in Ho. injection Ho as <-.
  exists before, x, y, after. auto.
Qed.

Lemma locate_first_line_witness :
  exists before x y after,
    kept Sample.to_float Sample.sound_map_file
    = before ++ (x, y, Sample.second_area) :: after /\
    (forall b, In b before -> snd b <> Sample.second_area) /\
    {| cases := 5; easting := 451000; northing := 301000 |}
    = {| cases := 5; easting := x; northing := y |}.
Proof.
  apply (locate_first_line Sample.to_float Sample.sound_map_file
           Sample.sound_lists).
  - vm_compute. reflexivity.
  - vm_compute. reflexivity.
  - vm_compute. reflexivity.
Defined.

(** ** The new outbreaks of each frame *)

Section FrameCounts.

Variable d : Q.
Variable frames_per_day : Z.
Variable nl : list Z.
Variable weekly : list outbreak.

Hypothesis nl_nonneg : Forall (fun x => 0 <= x) nl.
Hypothesis nl_sum : Py.isum nl = Z.of_nat (length weekly).

Lemma frame_loop_counts :
  forall m k c f f',
    (k + m <= length nl)%nat ->
    case_index c = released nl k ->
    r_tot c = Py.isum (firstn k nl) ->
    frame_loop d frames_per_day (Some nl) weekly (seq k m) c f = Ok f' ->
    exists fresh,
      rendered f' = rendered f ++ fresh /\
      map (fun fr => Z.of_nat (length (new_outbreaks fr))) fresh
      = firstn m (skipn k nl).
Proof.
  induction m as [|m IH]; intros k c f f' Hlen Hci Hr H.
  - cbn in H. injection H as <-. exists []. rewrite app_nil_r. auto.
  - cbn [seq frame_loop] in H. unfold frame_body, assign_frame in H.
    cbn [read_name bind] in H.
    destruct (index_Ok at_normalised_list nl k) as (n & En' & En); [lia|].
    rewrite En' in H. cbn [bind] in H.
    destruct (released_S nl weekly nl_nonneg nl_sum k n En)
      as (Hn & Hsum & Hrel & Hle).
    pose proof (isum_firstn_bounds nl k nl_nonneg) as Hk.
    replace (Z.to_nat (r_tot c + n - Z.of_nat (case_index c)))
      with (Z.to_nat n) in H by (rewrite Hci, Hr; unfold released; lia).
    rewrite assign_cases_Ok in H by (rewrite Hci; lia). cbn [bind app] in H.
    destruct (update_history d frames_per_day (historical_outbreaks f))
      as [h|e]; cbn [bind] in H; [|discriminate].
    apply IH in H; [| lia | cbn [case_index]; rewrite Hci; lia
                    | cbn [r_tot]; rewrite Hr; lia].
    destruct H as (fresh & Hren & Hmap). cbn [rendered] in Hren.
    eexists (_ :: fresh). split; [rewrite Hren, <- app_assoc; reflexivity|].
    cbn [map new_outbreaks].
    rewrite (skipn_nth_error nl k n En). cbn [firstn]. f_equal; [|exact Hmap].
    rewrite length_map, length_firstn, length_skipn.
    unfold released in *. lia.
Qed.

End FrameCounts.

(** X18: in a week with outbreaks whose frames are all rendered, the
    frames of the week release the outbreaks as the schedule says: the
    number of new outbreaks of the k-th frame is the k-th element of
    [normalised_list]. *)
Theorem frames_follow_schedule (d : Q) (frames_per_day : Z)
    (weekly : list outbreak) (previous next : nat) (nl : list Z)
    (f f' : film) :
  1 <= frames_per_day -> weekly <> [] ->
  schedule frames_per_day (Z.of_nat (length weekly)) (Z.of_nat previous)
    (Z.of_nat next) = Ok nl ->
  frame_loop d frames_per_day (Some nl) weekly (Py.range (frames_per_day * 7))
    {| case_index := 0; r_tot := 0 |} f = Ok f' ->
  exists fresh,
    rendered f' = rendered f ++ fresh /\
    map (fun fr => Z.of_nat (length (new_outbreaks fr))) fresh = nl.
Proof.
  intros Hf Hne Hs H.
  assert (Hc : (0 < length weekly)%nat)
    by (destruct weekly; [contradiction | cbn; lia]).
  destruct (schedule_spec frames_per_day (length weekly) previous next Hf Hc)
    as (nl' & Hs' & Hlen & Hsum & Hnn).
  rewrite Hs in Hs'. injection Hs' as <-.
  unfold Py.range in H. rewrite <- Hlen in H.
  apply (frame_loop_counts d frames_per_day nl weekly Hnn Hsum) in H;
    [| lia | reflexivity | reflexivity].
  destruct H as (fresh & Hren & Hmap).
  exists fresh. split; [exact Hren|].
  rewrite Hmap. cbn [skipn]. apply firstn_all.
Qed.

Lemma frames_follow_schedule_witness :
  exists f' fresh,
    frame_loop pow_half_seventh 1 (Some [0; 0; 0; 1; 0; 0; 1])
      [outbreak_of 3; outbreak_of 4] (Py.range (1 * 7))
      {| case_index := 0; r_tot := 0 |} (reel initial_state) = Ok f' /\
    rendered f' = rendered (reel initial_state) ++ fresh /\
    map (fun fr => Z.of_nat (length (new_outbreaks fr))) fresh
    = [0; 0; 0; 1; 0; 0; 1].
Proof.
  eexists.
  assert (H : frame_loop pow_half_seventh 1 (Some [0; 0; 0; 1; 0; 0; 1])
                [outbreak_of 3; outbreak_of 4] (Py.range (1 * 7))
                {| case_index := 0; r_tot := 0 |} (reel initial_state) = Ok _)
    by (vm_compute; reflexivity).
  destruct (frames_follow_schedule pow_half_seventh 1
              [outbreak_of 3; outbreak_of 4] 0 1 [0; 0; 0; 1; 0; 0; 1]
              (reel initial_state) _ ltac:(lia) ltac:(discriminate)
              ltac:(vm_compute; reflexivity) H)
    as (fresh & H1 & H2).
  exists fresh. split; [exact H|]. split; assumption.
Defined.

(** ** The sample shuffle keeps the length *)

Lemma sample_shuffle_length (g : Z) (l : list outbreak) :
  length (fst (sample_shuffle g l)) = length l.
Proof.
  unfold sample_shuffle. cbn [fst].
  rewrite length_app, length_skipn, length_firstn. lia.
Qed.

Lemma quiet_week_always_raises_witness :
  exists e,
    process_week Z sample_shuffle 1 pow_half_seventh false (week_of 0 3 0)
      {| started := true; previous_week_count := 1;
         normalised_list := Some [0; 0; 0; 0; 0; 0; 1];
         reel := reel initial_state |} 0
    = Raise e.
Proof.
  apply (quiet_week_always_raises Z sample_shuffle 1 pow_half_seventh false
           (week_of 0 3 0) _ 0 [0; 0; 0; 0; 0; 0; 1]).
  - exact sample_shuffle_length.
  - reflexivity.
  - reflexivity.
  - repeat constructor; lia.
  - reflexivity.
  - reflexivity.
  - reflexivity.
Defined.

(** ** The endpoints and the pass over the data *)

Section PassEndpoints.

Variable py_int : String.string -> option Z.
Variable m : map_lists.

Local Open Scope nat_scope.








Variable rng : Type.
Variable shuffle : rng -> list outbreak -> list outbreak * rng.


End PassEndpoints.



(** ** Two runs of the script *)


Section TwoRuns.

Variables rng1 rng2 : Type.
Variable shuffle1 : rng1 -> list outbreak -> list outbreak * rng1.
Variable shuffle2 : rng2 -> list outbreak -> list outbreak * rng2.
Variable frames_per_day : Z.
Variable d : Q.





(** The generators of the two runs answer alike: a relation between their
    states that the shuffles keep, giving the same order in related
    states. *)
Variable same_answers : rng1 -> rng2 -> Prop.
Hypothesis shuffles_agree :
  forall g1 g2 l,
    same_answers g1 g2 ->
    fst (shuffle1 g1 l) = fst (shuffle2 g2 l) /\
    same_answers (snd (shuffle1 g1 l)) (snd (shuffle2 g2 l)).



End TwoRuns.



